(** * SSD1306 I2C driver (MicroPython): shallow embedding and verification

    The repository holds two variants of one class [SSD1306]:
    - [ussd1306_i2c.py], the current driver (per-byte command framing,
      [i2c.writeto], reset call commented out of [power_on]);
    - [ussd1306-i2c.py], the older driver (block framing, [i2c.send],
      [power_on] calls [reset]).

    The current driver is embedded at top level, the older one in
    [Module Legacy].  Python integers are [Z]; Python lists of integers are
    [list Z]; a method is a function in a state-and-exception monad over the
    driver object together with its collaborators (bus, pins, delay service,
    console).  A raised exception keeps every mutation made before it, as in
    Python. *)

From Stdlib Require Import ZArith List Bool Lia String.
Import ListNotations.
Open Scope Z_scope.

(** ** Exceptions

    The driver validates arguments with [assert] and does not catch anything,
    so the exceptions a caller can observe are those of Python itself and of
    the collaborators.  The specification's [InvalidArgument] is
    [AssertionError]; its [BusTransferFailure] is the [OSError] raised by the
    bus. *)

Inductive exn : Type :=
| AssertionError
| OSError
| AttributeError
| NameError
| TypeError
| StructError.

Inductive result (A : Type) : Type :=
| Ok (a : A)
| Raise (e : exn).
Arguments Ok {A} a.
Arguments Raise {A} e.

(** ** Collaborators *)

(** The I2C bus.  [wire] records every transfer request the bus receives, as
    (device address, buffer), the most recent first; a request that the bus
    then fails is recorded too.  [faults] is the fault schedule of the
    simulated bus: the head [n] says that [n] more requests are served before
    one fails; an empty schedule never fails. *)
Record I2C : Type := mkI2C {
  bus_baudrate : option Z;
  bus_pins : option (string * string);
  faults : list nat;
  wire : list (Z * list Z)
}.

(** A GPIO pin.  [has_OUT_PP] is the result of ["OUT_PP" in dir(pin)]
    (pyBoard pins have it, WiPy pins do not). *)
Record Pin : Type := mkPin {
  has_OUT_PP : bool;
  pin_configured : bool;
  pin_value : option Z
}.

(** ** The driver object

    The fields of [self], followed by the two pieces of the environment the
    methods act on: the time spent in [sleep_ms]/[sleep_us] and the buffers
    printed by [bitmap] (the most recent first).  [rst] is [None] when the
    instance has no attribute [rst]. *)
Record SSD1306 : Type := mkSSD1306 {
  width : Z;
  height : Z;
  devid : Z;
  power : Z;
  addressing : Z;
  display_mode : list Z;
  osc_freq : Z;
  clock_div : Z;
  i2c : I2C;
  pwr : option Pin;
  rst : option Pin;
  elapsed_us : Z;
  stdout : list (list Z)
}.

(** Class constants. *)
Definition ADDRESSING_HORIZ : Z := 0x00.
Definition ADDRESSING_VERT : Z := 0x01.
Definition ADDRESSING_PAGE : Z := 0x02.
Definition POWER_UP : Z := 0xaf.
Definition POWER_DOWN : Z := 0xae.
Definition DISPLAY_BLANK : list Z := [0xae].
Definition DISPLAY_ALL : list Z := [0xa5].
Definition DISPLAY_NORMAL : list Z := [0xa4; 0xa6; 0xaf].
Definition DISPLAY_INVERSE : list Z := [0xa7].
Definition DC_CMD : Z := 0x80.
Definition DC_DATA : Z := 0x40.

(** Attribute assignment [self.f = v]. *)
Definition with_power (v : Z) (d : SSD1306) : SSD1306 :=
  mkSSD1306 (width d) (height d) (devid d) v (addressing d) (display_mode d)
            (osc_freq d) (clock_div d) (i2c d) (pwr d) (rst d)
            (elapsed_us d) (stdout d).
Definition with_addressing (v : Z) (d : SSD1306) : SSD1306 :=
  mkSSD1306 (width d) (height d) (devid d) (power d) v (display_mode d)
            (osc_freq d) (clock_div d) (i2c d) (pwr d) (rst d)
            (elapsed_us d) (stdout d).
Definition with_display_mode (v : list Z) (d : SSD1306) : SSD1306 :=
  mkSSD1306 (width d) (height d) (devid d) (power d) (addressing d) v
            (osc_freq d) (clock_div d) (i2c d) (pwr d) (rst d)
            (elapsed_us d) (stdout d).
Definition with_osc_freq (v : Z) (d : SSD1306) : SSD1306 :=
  mkSSD1306 (width d) (height d) (devid d) (power d) (addressing d)
            (display_mode d) v (clock_div d) (i2c d) (pwr d) (rst d)
            (elapsed_us d) (stdout d).
Definition with_clock_div (v : Z) (d : SSD1306) : SSD1306 :=
  mkSSD1306 (width d) (height d) (devid d) (power d) (addressing d)
            (display_mode d) (osc_freq d) v (i2c d) (pwr d) (rst d)
            (elapsed_us d) (stdout d).
Definition with_i2c (v : I2C) (d : SSD1306) : SSD1306 :=
  mkSSD1306 (width d) (height d) (devid d) (power d) (addressing d)
            (display_mode d) (osc_freq d) (clock_div d) v (pwr d) (rst d)
            (elapsed_us d) (stdout d).
Definition with_pwr (v : option Pin) (d : SSD1306) : SSD1306 :=
  mkSSD1306 (width d) (height d) (devid d) (power d) (addressing d)
            (display_mode d) (osc_freq d) (clock_div d) (i2c d) v (rst d)
            (elapsed_us d) (stdout d).
Definition with_rst (v : option Pin) (d : SSD1306) : SSD1306 :=
  mkSSD1306 (width d) (height d) (devid d) (power d) (addressing d)
            (display_mode d) (osc_freq d) (clock_div d) (i2c d) (pwr d) v
            (elapsed_us d) (stdout d).
Definition with_elapsed_us (v : Z) (d : SSD1306) : SSD1306 :=
  mkSSD1306 (width d) (height d) (devid d) (power d) (addressing d)
            (display_mode d) (osc_freq d) (clock_div d) (i2c d) (pwr d)
            (rst d) v (stdout d).
Definition with_stdout (v : list (list Z)) (d : SSD1306) : SSD1306 :=
  mkSSD1306 (width d) (height d) (devid d) (power d) (addressing d)
            (display_mode d) (osc_freq d) (clock_div d) (i2c d) (pwr d)
            (rst d) (elapsed_us d) v.

(** ** The method monad *)

Definition M (A : Type) : Type := SSD1306 -> result A * SSD1306.

Definition ret {A} (a : A) : M A := fun d => (Ok a, d).

Definition bind {A B} (m : M A) (k : A -> M B) : M B :=
  fun d => match m d with
           | (Ok a, d') => k a d'
           | (Raise e, d') => (Raise e, d')
           end.

Definition raise {A} (e : exn) : M A := fun d => (Raise e, d).

Definition gets {A} (f : SSD1306 -> A) : M A := fun d => (Ok (f d), d).

Definition modify (f : SSD1306 -> SSD1306) : M unit := fun d => (Ok tt, f d).

Notation "x <- m ;; k" := (bind m (fun x => k))
  (at level 61, m at next level, right associativity).
Notation "m ;; k" := (bind m (fun _ => k))
  (at level 61, right associativity).

(** [assert cond, msg]. *)
Definition assert_ (cond : bool) : M unit :=
  if cond then ret tt else raise AssertionError.

(** [x in xs] on integers and on lists of integers. *)
Definition Z_in (x : Z) (xs : list Z) : bool := existsb (Z.eqb x) xs.

Fixpoint list_Z_eqb (a b : list Z) : bool :=
  match a, b with
  | [], [] => true
  | x :: a', y :: b' => (x =? y) && list_Z_eqb a' b'
  | _, _ => false
  end.

Definition list_in (x : list Z) (xs : list (list Z)) : bool :=
  existsb (list_Z_eqb x) xs.

(** *** Bus, console, delay and packing primitives *)

(** The bus receives the request, then serves or fails it according to its
    fault schedule. *)
Definition bus_request (addr : Z) (buf : list Z) (b : I2C) : bool * I2C :=
  let w := (addr, buf) :: wire b in
  match faults b with
  | [] => (true, mkI2C (bus_baudrate b) (bus_pins b) [] w)
  | O :: rest => (false, mkI2C (bus_baudrate b) (bus_pins b) rest w)
  | S n :: rest => (true, mkI2C (bus_baudrate b) (bus_pins b) (n :: rest) w)
  end.

(** [self.i2c.writeto(addr, buf)]. *)
Definition i2c_writeto (addr : Z) (buf : list Z) : M unit :=
  fun d =>
    let (served, b) := bus_request addr buf (i2c d) in
    ((if served then Ok tt else Raise OSError), with_i2c b d).

(** [print(repr(buf))]. *)
Definition print (buf : list Z) : M unit :=
  modify (fun d => with_stdout (buf :: stdout d) d).

Definition is_byte (b : Z) : bool := (0 <=? b) && (b <=? 255).

(** [struct.pack('B'*len(arr), *arr)]: one unsigned byte per element.  An
    element outside 0..255 is rejected, as CPython's [struct] does; a port
    that truncates instead agrees with it on 0..255, the range of every
    encoding stated below. *)
Definition struct_pack_B (arr : list Z) : M (list Z) :=
  if forallb is_byte arr then ret arr else raise StructError.

(** ** Framing: [bitmap], [command], [data] *)

Definition bitmap (arr : list Z) (dc : Z) : M unit :=
  let arr := [dc] ++ arr in
  buf <- struct_pack_B arr ;;
  print buf ;;
  addr <- gets devid ;;
  i2c_writeto addr buf.

(** The loop of [command]: [arr2.append(DC_CMD); arr2.append(i)] for each
    [i]. *)
Definition command_loop (arr : list Z) : list Z :=
  fold_left (fun arr2 i => (arr2 ++ [DC_CMD]) ++ [i]) arr [].

Definition command (arr : list Z) : M unit :=
  let arr2 := command_loop arr in
  bitmap (skipn 1 arr2) DC_CMD.

Definition data (arr : list Z) : M unit :=
  bitmap arr DC_DATA.

(** ** Register operations *)

Definition set_power (power : Z) : M unit :=
  assert_ (Z_in power [POWER_UP; POWER_DOWN]) ;;
  modify (with_power power) ;;
  command [power].

Definition set_vcomh_deselect_level (level : Z) : M unit :=
  assert_ ((0 <=? level) && (level <? 8)) ;;
  let value := Z.shiftl level 4 in
  command [0xdb; value].

Definition set_precharge_period (phase1_dclk phase2_dclk : Z) : M unit :=
  assert_ ((0 <? phase1_dclk) && (phase1_dclk <? 16)) ;;
  assert_ ((0 <? phase2_dclk) && (phase2_dclk <? 16)) ;;
  let value := Z.shiftl phase2_dclk 4 in
  let value := Z.lor value phase1_dclk in
  command [0xd9; value].

(** The [isinstance(_, bool)] assertions of the next four methods hold by
    typing. *)
Definition set_com_pins_hw_config (enable_alt_config enable_lr_remap : bool)
  : M unit :=
  assert_ true ;;
  assert_ true ;;
  let value := 0x02 in
  let value := if enable_alt_config then Z.lor value 0x10 else value in
  let value := if enable_lr_remap then Z.lor value 0x20 else value in
  command [0xda; value].

Definition set_com_output_scan_dir_remap_enabled (status : bool) : M unit :=
  assert_ true ;;
  command [if status then 0xc8 else 0xc0].

Definition set_segment_remap_enabled (status : bool) : M unit :=
  assert_ true ;;
  command [if status then 0xa1 else 0xa0].

Definition set_chargepump_enabled (status : bool) : M unit :=
  assert_ true ;;
  command [0x8d; if status then 0x14 else 0x10].

Definition _set_oscfreqclockdiv : M unit :=
  f <- gets osc_freq ;;
  c <- gets clock_div ;;
  let value := Z.lor (Z.shiftl f 4) (c - 1) in
  command [0xd5; value].

Definition set_osc_freq (osc_freq : Z) (set : bool) : M unit :=
  assert_ ((0 <=? osc_freq) && (osc_freq <? 16)) ;;
  modify (with_osc_freq osc_freq) ;;
  if set then _set_oscfreqclockdiv else ret tt.

Definition set_clock_div (clock_div : Z) (set : bool) : M unit :=
  assert_ ((0 <? clock_div) && (clock_div <=? 16)) ;;
  modify (with_clock_div clock_div) ;;
  if set then _set_oscfreqclockdiv else ret tt.

Definition set_mux_ratio (mux_ratio : Z) : M unit :=
  assert_ ((16 <=? mux_ratio) && (mux_ratio <=? 64)) ;;
  command [0xa8; mux_ratio - 1].

Definition set_disp_offset (offset : Z) : M unit :=
  assert_ ((0 <=? offset) && (offset <? 63)) ;;
  command [0xd3; offset].

Definition set_disp_start_line (start_line : Z) : M unit :=
  assert_ ((0 <=? start_line) && (start_line <? 63)) ;;
  command [Z.lor 0x40 start_line].

Definition set_addressing (addr : Z) : M unit :=
  assert_ (Z_in addr [ADDRESSING_HORIZ; ADDRESSING_VERT; ADDRESSING_PAGE]) ;;
  modify (with_addressing addr) ;;
  command [0x20; addr].

Definition set_display (display_mode : list Z) : M unit :=
  assert_ (list_in display_mode
             [DISPLAY_BLANK; DISPLAY_ALL; DISPLAY_NORMAL; DISPLAY_INVERSE]) ;;
  modify (with_display_mode display_mode) ;;
  command display_mode.

Definition set_contrast (value : Z) : M unit :=
  assert_ ((0x00 <=? value) && (value <=? 0xff)) ;;
  command [0x81; value].

Definition position (x y : Z) : M unit :=
  w <- gets width ;;
  assert_ ((0 <=? x) && (x <? w)) ;;
  h <- gets height ;;
  assert_ ((0 <=? y) && (y <? h / 8)) ;;
  command [0x21; x; 0x7f; 0x22; y; 0x07].

(** [[0] * n]: empty when [n] is not positive. *)
Definition zeros (n : Z) : list Z := repeat 0 (Z.to_nat n).

Definition clear : M unit :=
  position 0 0 ;;
  h <- gets height ;;
  w <- gets width ;;
  data (zeros (h * w / 8)) ;;
  position 0 0.

(** ** Power and reset lifecycle *)

(** [time.sleep_ms] / [time.sleep_us], with [machine.delay] /
    [machine.udelay] as the fallback: the delay service. *)
Definition sleep_ms (mseconds : Z) : M unit :=
  modify (fun d => with_elapsed_us (elapsed_us d + 1000 * mseconds) d).

Definition sleep_us (useconds : Z) : M unit :=
  modify (fun d => with_elapsed_us (elapsed_us d + useconds) d).

Definition pin_set (v : Z) (p : Pin) : Pin :=
  mkPin (has_OUT_PP p) (pin_configured p) (Some v).

(** [if self.pwr: self.pwr.value(v)]. *)
Definition pwr_value (v : Z) : M unit :=
  p <- gets pwr ;;
  match p with
  | Some pin => modify (with_pwr (Some (pin_set v pin)))
  | None => ret tt
  end.

(** [self.rst.value(v)]: the attribute lookup fails on an instance without
    [rst]. *)
Definition rst_value (v : Z) : M unit :=
  p <- gets rst ;;
  match p with
  | Some pin => modify (with_rst (Some (pin_set v pin)))
  | None => raise AttributeError
  end.

Definition power_on : M unit :=
  pwr_value 1.

Definition reset : M unit :=
  rst_value 0 ;;
  sleep_us 100 ;;
  rst_value 1 ;;
  modify (with_power POWER_DOWN) ;;
  modify (with_addressing ADDRESSING_HORIZ) ;;
  modify (with_display_mode DISPLAY_NORMAL).

Definition power_off : M unit :=
  clear ;;
  set_power POWER_DOWN ;;
  sleep_ms 10 ;;
  pwr_value 0.

(** ** Construction *)

(** [i2c.init(i2c.MASTER, baudrate=400000, pins=pins)]. *)
Definition i2c_init (baudrate : Z) (pins : option (string * string))
  : M unit :=
  modify (fun d =>
            with_i2c (mkI2C (Some baudrate) pins (faults (i2c d))
                            (wire (i2c d))) d).

(** The [if pwr:] block of [__init__].  The pyBoard branch evaluates the
    undefined global [pwr_PULL_NONE]. *)
Definition pwr_init : M unit :=
  p <- gets pwr ;;
  match p with
  | Some pin =>
      if has_OUT_PP pin then raise NameError
      else modify (with_pwr (Some (mkPin (has_OUT_PP pin) true
                                         (pin_value pin))))
  | None => ret tt
  end.

(** The instance under construction.  [i2c] and [pwr] are the constructor's
    arguments, which [__init__] configures before storing them; [osc_freq]
    and [clock_div] are assigned before anything reads them.  No statement
    assigns [rst]. *)
Definition new_instance (i2c : I2C) (pwr : option Pin) (devid : Z)
  : SSD1306 :=
  mkSSD1306 128 64 devid POWER_DOWN ADDRESSING_HORIZ DISPLAY_NORMAL
            8 1 i2c pwr None 0 [].

Definition init_body (pins : string * string) : M unit :=
  i2c_init 400000 (Some pins) ;;
  pwr_init ;;
  modify (with_osc_freq 8) ;;
  modify (with_clock_div 1) ;;
  power_on ;;
  set_power POWER_DOWN ;;
  h <- gets height ;;
  set_mux_ratio h ;;
  set_disp_offset 0 ;;
  set_disp_start_line 0 ;;
  set_segment_remap_enabled false ;;
  set_com_output_scan_dir_remap_enabled false ;;
  set_com_pins_hw_config true false ;;
  set_contrast 255 ;;
  set_osc_freq 8 false ;;
  set_clock_div 1 true ;;
  set_chargepump_enabled true ;;
  set_addressing ADDRESSING_HORIZ ;;
  set_precharge_period 1 15 ;;
  set_vcomh_deselect_level 4 ;;
  set_display DISPLAY_NORMAL ;;
  clear.

Definition __init__ (i2c : I2C) (pins : string * string) (pwr : option Pin)
                    (devid : Z) : result unit * SSD1306 :=
  init_body pins (new_instance i2c pwr devid).

(** The default [pins] argument. *)
Definition default_pins : string * string := ("GP15"%string, "GP10"%string).

(** ** The public surface as data

    One constructor per method of the class, so that statements can range
    over every call a client can make on an instance. *)
Inductive call : Type :=
| Call_set_power (power : Z)
| Call_set_vcomh_deselect_level (level : Z)
| Call_set_precharge_period (phase1_dclk phase2_dclk : Z)
| Call_set_com_pins_hw_config (enable_alt_config enable_lr_remap : bool)
| Call_set_com_output_scan_dir_remap_enabled (status : bool)
| Call_set_segment_remap_enabled (status : bool)
| Call_set_chargepump_enabled (status : bool)
| Call__set_oscfreqclockdiv
| Call_set_osc_freq (osc_freq : Z) (set : bool)
| Call_set_clock_div (clock_div : Z) (set : bool)
| Call_set_mux_ratio (mux_ratio : Z)
| Call_set_disp_offset (offset : Z)
| Call_set_disp_start_line (start_line : Z)
| Call_set_addressing (addr : Z)
| Call_set_display (display_mode : list Z)
| Call_set_contrast (value : Z)
| Call_position (x y : Z)
| Call_clear
| Call_sleep_ms (mseconds : Z)
| Call_sleep_us (useconds : Z)
| Call_power_on
| Call_reset
| Call_power_off
| Call_command (arr : list Z)
| Call_data (arr : list Z)
| Call_bitmap (arr : list Z) (dc : Z).

Definition invoke (c : call) : M unit :=
  match c with
  | Call_set_power p => set_power p
  | Call_set_vcomh_deselect_level l => set_vcomh_deselect_level l
  | Call_set_precharge_period p1 p2 => set_precharge_period p1 p2
  | Call_set_com_pins_hw_config a r => set_com_pins_hw_config a r
  | Call_set_com_output_scan_dir_remap_enabled s =>
      set_com_output_scan_dir_remap_enabled s
  | Call_set_segment_remap_enabled s => set_segment_remap_enabled s
  | Call_set_chargepump_enabled s => set_chargepump_enabled s
  | Call__set_oscfreqclockdiv => _set_oscfreqclockdiv
  | Call_set_osc_freq f s => set_osc_freq f s
  | Call_set_clock_div c s => set_clock_div c s
  | Call_set_mux_ratio m => set_mux_ratio m
  | Call_set_disp_offset o => set_disp_offset o
  | Call_set_disp_start_line l => set_disp_start_line l
  | Call_set_addressing a => set_addressing a
  | Call_set_display m => set_display m
  | Call_set_contrast v => set_contrast v
  | Call_position x y => position x y
  | Call_clear => clear
  | Call_sleep_ms ms => sleep_ms ms
  | Call_sleep_us us => sleep_us us
  | Call_power_on => power_on
  | Call_reset => reset
  | Call_power_off => power_off
  | Call_command arr => command arr
  | Call_data arr => data arr
  | Call_bitmap arr dc => bitmap arr dc
  end.

(** A client session: the calls are made one after the other on the same
    instance, whatever each of them returns or raises. *)
Definition session (cs : list call) (d : SSD1306) : SSD1306 :=
  fold_left (fun d c => snd (invoke c d)) cs d.

(** The register operations and lifecycle operations, as opposed to the raw
    framing entry points [command], [data] and [bitmap]. *)
Definition is_operation (c : call) : bool :=
  match c with
  | Call_command _ | Call_data _ | Call_bitmap _ _ => false
  | _ => true
  end.

(** ** Observations *)

(** The requests the bus has received, oldest first. *)
Definition transfers (b : I2C) : list (Z * list Z) := rev (wire b).

(** The requests [m] issues when run from [d], oldest first. *)
Definition issued {A} (m : M A) (d : SSD1306) : list (Z * list Z) :=
  let before := wire (i2c d) in
  let after := wire (i2c (snd (m d))) in
  rev (firstn (List.length after - List.length before)%nat after).

(** The bus serves the next [n] requests. *)
Definition serves (n : nat) (b : I2C) : bool :=
  match faults b with
  | [] => true
  | k :: _ => (n <=? k)%nat
  end.

(** The instance after [bitmap] has printed [buf] and handed it to the
    bus. *)
Definition requested (buf : list Z) (d : SSD1306) : SSD1306 :=
  with_i2c (snd (bus_request (devid d) buf (i2c d)))
           (with_stdout (buf :: stdout d) d).

(** What a method that issues one request returns from [d]. *)
Definition outcome (d : SSD1306) : result unit :=
  if serves 1 (i2c d) then Ok tt else Raise OSError.

(** The constructor's [if pwr:] block completes: no power pin, or a WiPy
    style pin. *)
Definition pwr_init_completes (pwr : option Pin) : bool :=
  match pwr with
  | Some pin => negb (has_OUT_PP pin)
  | None => true
  end.

(** A simulated bus that serves every request, the instance [__init__]
    works on for it, and the constructed driver. *)
Definition sample_bus : I2C := mkI2C None None [] [].
Definition sample_instance : SSD1306 := new_instance sample_bus None 0x3c.
Definition sample_driver : SSD1306 :=
  snd (__init__ sample_bus default_pins None 0x3c).

(** The same bus, set to fail its next request. *)
Definition failing_bus : I2C := mkI2C None None [0%nat] [].

(** Per-byte command framing as the specification words it: each command
    byte individually preceded by the control byte. *)
Definition per_byte_framing (arr : list Z) : list Z :=
  flat_map (fun b => [DC_CMD; b]) arr.

(** Data framing as the specification words it: one control byte, then the
    payload as one block. *)
Definition data_framing (arr : list Z) : list Z := DC_DATA :: arr.

(** A buffer that follows the framing discipline. *)
Definition well_framed (buf : list Z) : Prop :=
  (exists arr, arr <> [] /\ buf = per_byte_framing arr) \/
  (exists arr, buf = data_framing arr).

(** The cursor-positioning command bytes for column [x], page [y]. *)
Definition position_bytes (x y : Z) : list Z :=
  [0x21; x; 0x7f; 0x22; y; 0x07].

(** The register writes of the initialization sequence for a 128x64 panel,
    in the order of the specification's section 4.3, as command bytes
    (steps 2 to 13; step 1 is a pin action and step 14 is the clear). *)
Definition init_register_writes : list (list Z) :=
  [ [0xae];              (* 2. power Down *)
    [0xa8; 0x3f];        (* 3. multiplex ratio = height *)
    [0xd3; 0x00];        (* 4. display offset 0 *)
    [0x40];              (* 5. start line 0 *)
    [0xa0];              (* 6. segment remap off *)
    [0xc0];              (* 6. COM scan direction normal *)
    [0xda; 0x12];        (* 7. COM pins: alternative, no left/right remap *)
    [0x81; 0xff];        (* 8. contrast 255 *)
    [0xd5; 0x80];        (* 9. oscillator frequency 8, clock divider 1 *)
    [0x8d; 0x14];        (* 10. charge pump enabled *)
    [0x20; 0x00];        (* 11. horizontal addressing *)
    [0xd9; 0xf1];        (* 12. precharge period 1, 15 *)
    [0xdb; 0x40];        (* 12. Vcomh deselect level 4 *)
    [0xa4; 0xa6; 0xaf]   (* 13. display mode Normal *) ].

(** The zero fill of a 128x64 frame buffer: 1024 zero bytes under one data
    control byte. *)
Definition zero_fill : list Z := data_framing (repeat 0 1024%nat).

(** The buffers of the clear step. *)
Definition clear_transfers : list (list Z) :=
  [ per_byte_framing (position_bytes 0 0);
    zero_fill;
    per_byte_framing (position_bytes 0 0) ].

(** The whole initialization sequence as buffers on the bus. *)
Definition init_sequence : list (list Z) :=
  map per_byte_framing init_register_writes ++ clear_transfers.

(** ** The older variant, [ussd1306-i2c.py] *)

(** An argument that the older driver passes either as a list or as a bare
    integer. *)
Inductive pyarg : Type :=
| PyList (l : list Z)
| PyInt (n : Z).

(** The methods on the constructor's path and the lifecycle methods. *)
Module Legacy.

Definition DISPLAY_NORMAL : list Z := [0xaf; 0xa4; 0xa6].

(** [self.i2c.send(buf, addr=self.devid, timeout=5000)]. *)
Definition i2c_send (buf : list Z) (addr : Z) : M unit :=
  i2c_writeto addr buf.

(** [[dc] + arr] raises [TypeError] when [arr] is an integer. *)
Definition bitmap (arr : pyarg) (dc : Z) : M unit :=
  match arr with
  | PyInt _ => raise TypeError
  | PyList l =>
      let arr := [dc] ++ l in
      buf <- struct_pack_B arr ;;
      addr <- gets devid ;;
      i2c_send buf addr
  end.

Definition command (arr : pyarg) : M unit :=
  bitmap arr DC_CMD.

Definition data (arr : pyarg) : M unit :=
  bitmap arr DC_DATA.

Definition set_power (power : Z) : M unit :=
  assert_ (Z_in power [POWER_UP; POWER_DOWN]) ;;
  modify (with_power power) ;;
  command (PyInt power).

Definition set_contrast (value : Z) : M unit :=
  assert_ ((0x00 <=? value) && (value <=? 0xff)) ;;
  command (PyList [0x81; value]).

Definition position (x y : Z) : M unit :=
  w <- gets width ;;
  assert_ ((0 <=? x) && (x <? w)) ;;
  h <- gets height ;;
  assert_ ((0 <=? y) && (y <? h / 8)) ;;
  command (PyList [0x20; 0x00; x; 0x21; 0x00; y]).

Definition clear : M unit :=
  position 0 0 ;;
  h <- gets height ;;
  w <- gets width ;;
  data (PyList (zeros (h * w / 8))) ;;
  position 0 0.

Definition reset : M unit :=
  rst_value 0 ;;
  sleep_us 100 ;;
  rst_value 1 ;;
  modify (with_power POWER_DOWN) ;;
  modify (with_addressing ADDRESSING_HORIZ) ;;
  modify (with_display_mode DISPLAY_NORMAL).

Definition power_on : M unit :=
  pwr_value 1 ;;
  reset.

Definition power_off : M unit :=
  clear ;;
  set_power POWER_DOWN ;;
  sleep_ms 10 ;;
  pwr_value 0.

(** The older class has no [osc_freq] and [clock_div]; the record carries 0
    for them and nothing in this variant reads them.  No statement assigns
    [rst] here either. *)
Definition new_instance (i2c : I2C) (pwr : option Pin) (devid : Z)
  : SSD1306 :=
  mkSSD1306 128 64 devid POWER_DOWN ADDRESSING_HORIZ DISPLAY_NORMAL
            0 0 i2c pwr None 0 [].

(** [self.set_addressing] is not a method of this variant (it defines
    [set_adressing]), and [DISPLAY_NORMAL] is not a global name. *)
Definition init_body : M unit :=
  i2c_init 400000 None ;;
  pwr_init ;;
  power_on ;;
  set_power POWER_DOWN ;;
  command (PyList [0xd5; 0x80]) ;;
  command (PyList [0xa8; 0x3f]) ;;
  command (PyList [0xd3; 0x00]) ;;
  command (PyInt (Z.lor 0x40 0x00)) ;;
  command (PyList [0x8d; 0x14]) ;;
  (raise AttributeError : M unit) ;;
  command (PyInt (Z.lor 0xa0 0x10)) ;;
  command (PyInt 0xc8) ;;
  command (PyList [0xda; 0x12]) ;;
  set_contrast 255 ;;
  command (PyList [0xd9; 0xf1]) ;;
  command (PyList [0xdb; 0x40]) ;;
  (raise NameError : M unit) ;;
  clear.

Definition __init__ (i2c : I2C) (pwr : option Pin) (devid : Z)
  : result unit * SSD1306 :=
  init_body (new_instance i2c pwr devid).

(** [set_adressing] (so spelled in this variant). *)
Definition set_adressing (addr : Z) : M unit :=
  assert_ (Z_in addr [ADDRESSING_HORIZ; ADDRESSING_VERT; ADDRESSING_PAGE]) ;;
  modify (with_addressing addr) ;;
  command (PyList [0x20; addr]).

End Legacy.

(** ** Properties of whole methods *)

(** Whatever [m] hands to the bus follows the framing discipline. *)
Definition framed_run {A} (m : M A) : Prop :=
  forall d, exists new,
    wire (i2c (snd (m d))) = new ++ wire (i2c d)
    /\ Forall (fun t => well_framed (snd t)) new.

(** [m] does not give the instance an attribute [rst]. *)
Definition keeps_rst_absent {A} (m : M A) : Prop :=
  forall d, rst d = None -> rst (snd (m d)) = None.

(** ** Relations between the instance before and after a method *)

(** The exception a result carries, if any. *)
Definition raised {A} (r : result A) : option exn :=
  match r with
  | Ok _ => None
  | Raise e => Some e
  end.

(** [m] relates every instance it starts from, what it raises and the
    instance it leaves by [R]. *)
Definition obeys (R : SSD1306 -> option exn -> SSD1306 -> Prop) {A}
           (m : M A) : Prop :=
  forall d, R d (raised (fst (m d))) (snd (m d)).

(** Relations that hold of doing nothing and that compose along a sequence
    of statements. *)
Class Sequential (R : SSD1306 -> option exn -> SSD1306 -> Prop) : Prop := {
  seq_skip : forall d, R d None d;
  seq_then : forall d d1 d2 o, R d None d1 -> R d1 o d2 -> R d o d2
}.

(** The dimensions and the device address are as before. *)
Definition same_geometry (d : SSD1306) (_ : option exn) (d' : SSD1306)
  : Prop :=
  width d' = width d /\ height d' = height d /\ devid d' = devid d.

(** The number of failures the bus still has in store. *)
Definition pending (d : SSD1306) : nat := List.length (faults (i2c d)).

(** [OSError] is raised exactly when the bus has spent one failure, and no
    more than one is ever spent. *)
Definition fault_accounting (d : SSD1306) (o : option exn) (d' : SSD1306)
  : Prop :=
  match o with
  | Some OSError => S (pending d') = pending d
  | _ => pending d' = pending d
  end.

(** The bus log only grows, by requests to the instance's device address. *)
Definition addressed (d : SSD1306) (_ : option exn) (d' : SSD1306) : Prop :=
  exists new,
    wire (i2c d') = new ++ wire (i2c d)
    /\ Forall (fun t => fst t = devid d) new
    /\ devid d' = devid d.

(** No [AssertionError]. *)
Definition never_asserts (_ : SSD1306) (o : option exn) (_ : SSD1306)
  : Prop :=
  o <> Some AssertionError.

(** No [AssertionError], and the dimensions are as before. *)
Definition steady (d : SSD1306) (o : option exn) (d' : SSD1306) : Prop :=
  o <> Some AssertionError /\ width d' = width d /\ height d' = height d.

(** An [AssertionError] leaves the instance, collaborators included, as it
    was. *)
Definition fails_fast (d : SSD1306) (o : option exn) (d' : SSD1306) : Prop :=
  o = Some AssertionError -> d' = d.

(** The cached register fields hold values of their registers' domains. *)
Definition cache_in_domain (d : SSD1306) : Prop :=
  Z_in (power d) [POWER_UP; POWER_DOWN] = true
  /\ Z_in (addressing d)
          [ADDRESSING_HORIZ; ADDRESSING_VERT; ADDRESSING_PAGE] = true
  /\ list_in (display_mode d)
             [DISPLAY_BLANK; DISPLAY_ALL; DISPLAY_NORMAL; DISPLAY_INVERSE]
     = true
  /\ 0 <= osc_freq d <= 15
  /\ 1 <= clock_div d <= 16.

Definition keeps_cache_in_domain (d : SSD1306) (_ : option exn)
           (d' : SSD1306) : Prop :=
  cache_in_domain d -> cache_in_domain d'.

(** The power pin, the reset pin and the delay service are as before. *)
Definition lifecycle_untouched (d : SSD1306) (_ : option exn)
           (d' : SSD1306) : Prop :=
  pwr d' = pwr d /\ rst d' = rst d /\ elapsed_us d' = elapsed_us d.

(** The two assertions of [position], as one test. *)
Definition position_guard (x y : Z) (d : SSD1306) : bool :=
  ((0 <=? x) && (x <? width d)) && ((0 <=? y) && (y <? height d / 8)).

(** Every buffer handed to the bus was printed first, and nothing else is
    printed: the console and the bus log grow by the same buffers. *)
Definition echoed (d : SSD1306) (_ : option exn) (d' : SSD1306) : Prop :=
  exists bufs,
    wire (i2c d') = map (pair (devid d)) bufs ++ wire (i2c d)
    /\ stdout d' = bufs ++ stdout d
    /\ devid d' = devid d.


(** The value byte of [set_com_pins_hw_config]. *)
Definition com_pins_byte (enable_alt_config enable_lr_remap : bool) : Z :=
  0x02 + (if enable_alt_config then 0x10 else 0)
       + (if enable_lr_remap then 0x20 else 0).

(** A constructed driver with a reset pin attached by its client. *)
Definition sample_pin : Pin := mkPin false true None.
Definition sample_driver_with_rst : SSD1306 :=
  with_rst (Some sample_pin) sample_driver.

(** The same driver after it was set to power Up and vertical
    addressing. *)
Definition sample_driver_in_use : SSD1306 :=
  session [Call_set_power POWER_UP; Call_set_addressing ADDRESSING_VERT]
          sample_driver_with_rst.

(** * Verification *)

(** ** Stepping through the monad *)

Lemma bind_assert_true {B} (c : bool) (k : M B) (d : SSD1306) :
  c = true -> (assert_ c ;; k) d = k d.
Proof. intros ->. reflexivity. Qed.

Lemma bind_assert_false {B} (c : bool) (k : M B) (d : SSD1306) :
  c = false -> (assert_ c ;; k) d = (Raise AssertionError, d).
Proof. intros ->. reflexivity. Qed.

Lemma bind_modify {B} (f : SSD1306 -> SSD1306) (k : M B) (d : SSD1306) :
  (modify f ;; k) d = k (f d).
Proof. reflexivity. Qed.

Lemma bind_gets {A B} (f : SSD1306 -> A) (k : A -> M B) (d : SSD1306) :
  (x <- gets f ;; k x) d = k (f d) d.
Proof. reflexivity. Qed.

Lemma bind_run {A B} (m : M A) (k : A -> M B) (d d' : SSD1306) (a : A) :
  m d = (Ok a, d') -> (x <- m ;; k x) d = k a d'.
Proof. unfold bind. intros ->. reflexivity. Qed.

Lemma bind_raise {A B} (m : M A) (k : A -> M B) (d d' : SSD1306) (e : exn) :
  m d = (Raise e, d') -> (x <- m ;; k x) d = (Raise e, d').
Proof. unfold bind. intros ->. reflexivity. Qed.

(** ** The bus log *)

Lemma issued_of_wire {A} (m : M A) (d : SSD1306) (new : list (Z * list Z)) :
  wire (i2c (snd (m d))) = new ++ wire (i2c d) ->
  issued m d = rev new.
Proof.
  intro H. unfold issued. rewrite H, length_app.
  replace (List.length new + List.length (wire (i2c d))
           - List.length (wire (i2c d)))%nat
    with (List.length new) by lia.
  rewrite firstn_app, firstn_all, Nat.sub_diag. simpl.
  now rewrite app_nil_r.
Qed.

Lemma issued_unchanged {A} (m : M A) (d : SSD1306) (r : result A) :
  m d = (r, d) -> issued m d = [].
Proof.
  intro H. apply (issued_of_wire m d []). rewrite H. reflexivity.
Qed.

Lemma wire_requested (buf : list Z) (d : SSD1306) :
  wire (i2c (requested buf d)) = (devid d, buf) :: wire (i2c d).
Proof.
  unfold requested, bus_request. destruct d as [? ? ? ? ? ? ? ? b ? ? ? ?].
  simpl. destruct (faults b) as [|[|n] rest]; reflexivity.
Qed.


Lemma serves_requested (n : nat) (buf : list Z) (d : SSD1306) :
  serves (S n) (i2c d) = true ->
  serves n (i2c (requested buf d)) = true.
Proof.
  unfold requested, bus_request, serves.
  destruct d as [? ? ? ? ? ? ? ? b ? ? ? ?]. simpl.
  destruct (faults b) as [|[|k] rest]; simpl; try reflexivity.
  - discriminate.
  - intro H. apply Nat.leb_le in H. apply Nat.leb_le. lia.
Qed.

Lemma outcome_served (n : nat) (d : SSD1306) :
  serves (S n) (i2c d) = true -> outcome d = Ok tt.
Proof.
  unfold outcome, serves. destruct (faults (i2c d)) as [|k rest].
  - reflexivity.
  - intro H. apply Nat.leb_le in H.
    replace (1 <=? k)%nat with true; [reflexivity|].
    symmetry. apply Nat.leb_le. lia.
Qed.

(** ** [bitmap], [command] and [data] *)

Lemma fold_command_loop (arr acc : list Z) :
  fold_left (fun arr2 i => (arr2 ++ [DC_CMD]) ++ [i]) arr acc
  = acc ++ per_byte_framing arr.
Proof.
  revert acc; induction arr as [|b arr IH]; intro acc; simpl.
  - now rewrite app_nil_r.
  - rewrite IH, <- !app_assoc. reflexivity.
Qed.

Lemma command_loop_framing (arr : list Z) :
  command_loop arr = per_byte_framing arr.
Proof. unfold command_loop. now rewrite fold_command_loop. Qed.

Lemma bitmap_run (arr : list Z) (dc : Z) (d : SSD1306) :
  forallb is_byte (dc :: arr) = true ->
  bitmap arr dc d = (outcome d, requested (dc :: arr) d).
Proof.
  intro Hb. unfold bitmap, bind, struct_pack_B.
  change ([dc] ++ arr) with (dc :: arr). rewrite Hb.
  unfold ret, print, modify, gets, i2c_writeto, outcome, requested, serves,
    bus_request.
  destruct d as [w h dev p a dm f c [bb bp fl wr] pw rs el so]; simpl.
  destruct fl as [|[|n] rest]; reflexivity.
Qed.

Lemma bitmap_rejected (arr : list Z) (dc : Z) (d : SSD1306) :
  forallb is_byte (dc :: arr) = false ->
  bitmap arr dc d = (Raise StructError, d).
Proof.
  intro Hb. unfold bitmap, bind, struct_pack_B.
  change ([dc] ++ arr) with (dc :: arr). rewrite Hb. reflexivity.
Qed.

(** The buffer [command] hands to [bitmap], control byte included. *)
Lemma command_buffer (arr : list Z) :
  DC_CMD :: skipn 1 (per_byte_framing arr)
  = match arr with [] => [DC_CMD] | _ :: _ => per_byte_framing arr end.
Proof. destruct arr; reflexivity. Qed.

Lemma per_byte_framing_bytes (arr : list Z) :
  forallb is_byte arr = true ->
  forallb is_byte (per_byte_framing arr) = true.
Proof.
  induction arr as [|b arr IH]; simpl; [reflexivity|].
  intro H. apply andb_true_iff in H. destruct H as [Hb Harr].
  now rewrite Hb, IH.
Qed.

Lemma command_run (arr : list Z) (d : SSD1306) :
  forallb is_byte arr = true ->
  command arr d
  = (outcome d,
     requested (match arr with
                | [] => [DC_CMD]
                | _ :: _ => per_byte_framing arr
                end) d).
Proof.
  intro Hb. unfold command. rewrite command_loop_framing.
  rewrite bitmap_run; [now rewrite command_buffer|].
  rewrite command_buffer. destruct arr as [|b arr]; [reflexivity|].
  now apply per_byte_framing_bytes.
Qed.

Lemma data_run (arr : list Z) (d : SSD1306) :
  forallb is_byte arr = true ->
  data arr d = (outcome d, requested (data_framing arr) d).
Proof. intro Hb. unfold data. now rewrite bitmap_run. Qed.

Lemma issued_requested_from {A} (m : M A) (d d' : SSD1306) (r : result A)
      (buf : list Z) :
  m d = (r, requested buf d') -> i2c d' = i2c d -> devid d' = devid d ->
  issued m d = [(devid d, buf)].
Proof.
  intros H Hb Hd. apply (issued_of_wire m d [(devid d, buf)]).
  rewrite H. simpl snd. rewrite wire_requested, Hb, Hd. reflexivity.
Qed.

Lemma issued_requested {A} (m : M A) (d : SSD1306) (r : result A)
      (buf : list Z) :
  m d = (r, requested buf d) -> issued m d = [(devid d, buf)].
Proof.
  intro H. exact (issued_requested_from m d d r buf H eq_refl eq_refl).
Qed.

(** ** Register operations *)

Lemma shiftl_4 (a : Z) : Z.shiftl a 4 = a * 16.
Proof. rewrite Z.shiftl_mul_pow2 by lia. reflexivity. Qed.

Lemma is_byte_range (b : Z) : 0 <= b <= 255 -> is_byte b = true.
Proof.
  intro H. unfold is_byte. apply andb_true_iff. split; apply Z.leb_le; lia.
Qed.

Lemma in_range_lt (lo hi x : Z) :
  lo <= x < hi -> (lo <=? x) && (x <? hi) = true.
Proof.
  intro H. apply andb_true_iff. split; [apply Z.leb_le|apply Z.ltb_lt]; lia.
Qed.

Lemma out_of_range_lt (lo hi x : Z) :
  ~ (lo <= x < hi) -> (lo <=? x) && (x <? hi) = false.
Proof.
  intro H. apply andb_false_iff.
  destruct (Z.leb_spec lo x); [right; apply Z.ltb_ge; lia | now left].
Qed.

(** C7. For every level in 0..7, [set_vcomh_deselect_level] hands the bus
    exactly one buffer, the two command bytes [0xDB, level<<4] under command
    framing, and returns what the bus returns (normally when the bus serves
    the request).  For every level outside 0..7 it raises [AssertionError]
    (the specification's InvalidArgument), issues no bus transfer and leaves
    the instance as it was. *)
Theorem set_vcomh_deselect_level_encoding :
  (forall d level, 0 <= level <= 7 ->
     issued (set_vcomh_deselect_level level) d
     = [(devid d, per_byte_framing [0xdb; Z.shiftl level 4])]
     /\ fst (set_vcomh_deselect_level level d) = outcome d
     /\ (serves 1 (i2c d) = true ->
         fst (set_vcomh_deselect_level level d) = Ok tt)) /\
  (forall d level, ~ (0 <= level <= 7) ->
     set_vcomh_deselect_level level d = (Raise AssertionError, d)
     /\ issued (set_vcomh_deselect_level level) d = []).
Proof.
  split; intros d level H.
  - assert (E : set_vcomh_deselect_level level d
                = (outcome d,
                   requested (per_byte_framing [0xdb; Z.shiftl level 4]) d)).
    { unfold set_vcomh_deselect_level.
      rewrite bind_assert_true by (apply in_range_lt; lia).
      apply command_run. cbn [forallb].
      rewrite (is_byte_range (Z.shiftl level 4)); [reflexivity|].
      rewrite shiftl_4. lia. }
    split; [exact (issued_requested _ _ _ _ E)|].
    rewrite E. split; [reflexivity|].
    intro Hs. exact (outcome_served 0 d Hs).
  - assert (E : set_vcomh_deselect_level level d = (Raise AssertionError, d)).
    { unfold set_vcomh_deselect_level.
      apply bind_assert_false, out_of_range_lt. lia. }
    split; [exact E | exact (issued_unchanged _ _ _ E)].
Qed.

Lemma set_vcomh_deselect_level_encoding_witness :
  (issued (set_vcomh_deselect_level 4) sample_instance
   = [(0x3c, [0x80; 0xdb; 0x80; 0x40])]
   /\ fst (set_vcomh_deselect_level 4 sample_instance) = Ok tt) /\
  set_vcomh_deselect_level 8 sample_instance
  = (Raise AssertionError, sample_instance).
Proof.
  split.
  - destruct (proj1 set_vcomh_deselect_level_encoding sample_instance 4)
      as [Hi [_ Hs]]; [lia|].
    split; [exact Hi | apply Hs; reflexivity].
  - apply (proj2 set_vcomh_deselect_level_encoding sample_instance 8). lia.
Defined.

(** C9. For every x outside [0, width) or y outside [0, height/8),
    [position] raises [AssertionError] (InvalidArgument) and hands nothing
    to the bus: the instance, bus included, is left as it was. *)
Theorem position_out_of_range :
  forall d x y,
    ~ (0 <= x < width d) \/ ~ (0 <= y < height d / 8) ->
    position x y d = (Raise AssertionError, d)
    /\ issued (position x y) d = [].
Proof.
  intros d x y H.
  assert (E : position x y d = (Raise AssertionError, d)).
  { unfold position. rewrite bind_gets.
    destruct (Z_le_gt_dec 0 x) as [Hx0|Hx0];
      [destruct (Z_lt_ge_dec x (width d)) as [Hx1|Hx1]|].
    - rewrite bind_assert_true by (apply in_range_lt; lia).
      rewrite bind_gets. apply bind_assert_false, out_of_range_lt.
      destruct H as [H|H]; [exfalso; apply H; lia | exact H].
    - apply bind_assert_false, out_of_range_lt. lia.
    - apply bind_assert_false, out_of_range_lt. lia. }
  split; [exact E | exact (issued_unchanged _ _ _ E)].
Qed.

Lemma position_out_of_range_witness :
  position 128 0 sample_driver = (Raise AssertionError, sample_driver)
  /\ position 0 8 sample_driver = (Raise AssertionError, sample_driver)
  /\ position (-1) 0 sample_driver = (Raise AssertionError, sample_driver).
Proof.
  split; [|split].
  - apply (position_out_of_range sample_driver 128 0).
    left. vm_compute. intros [_ H]. discriminate H.
  - apply (position_out_of_range sample_driver 0 8).
    right. vm_compute. intros [_ H]. discriminate H.
  - apply (position_out_of_range sample_driver (-1) 0).
    left. vm_compute. intros [H _]. apply H. reflexivity.
Defined.

(** In range, [position] sends the column-range and page-range commands. *)
Lemma position_run (x y : Z) (d : SSD1306) :
  0 <= x < width d -> 0 <= y < height d / 8 ->
  x <= 255 -> y <= 255 ->
  position x y d
  = (outcome d, requested (per_byte_framing (position_bytes x y)) d).
Proof.
  intros Hx Hy Hx' Hy'. unfold position.
  rewrite bind_gets, bind_assert_true by (apply in_range_lt; lia).
  rewrite bind_gets, bind_assert_true by (apply in_range_lt; lia).
  apply command_run. unfold position_bytes. cbn [forallb].
  rewrite (is_byte_range x), (is_byte_range y) by lia. reflexivity.
Qed.

(** C5 (the code departs from the claim at offset 63).  The guard of
    [set_disp_offset] is [0 <= offset < 63]: offset 63, which its own
    message and the register's domain allow, raises [AssertionError] and
    nothing is sent. *)
Theorem set_disp_offset_rejects_63 :
  forall d, set_disp_offset 63 d = (Raise AssertionError, d)
            /\ issued (set_disp_offset 63) d = [].
Proof.
  intro d.
  assert (E : set_disp_offset 63 d = (Raise AssertionError, d))
    by reflexivity.
  split; [exact E | exact (issued_unchanged _ _ _ E)].
Qed.

(** Offsets 0..62 are encoded as [0xD3, offset]. *)
Lemma set_disp_offset_encoding (offset : Z) (d : SSD1306) :
  0 <= offset <= 62 ->
  set_disp_offset offset d
  = (outcome d, requested (per_byte_framing [0xd3; offset]) d).
Proof.
  intro H. unfold set_disp_offset.
  rewrite bind_assert_true by (apply in_range_lt; lia).
  apply command_run. cbn [forallb].
  rewrite (is_byte_range offset) by lia. reflexivity.
Qed.

(** Offsets outside 0..63 are rejected before anything is sent. *)
Lemma set_disp_offset_out_of_domain (offset : Z) (d : SSD1306) :
  ~ (0 <= offset <= 63) ->
  set_disp_offset offset d = (Raise AssertionError, d).
Proof.
  intro H. unfold set_disp_offset.
  apply bind_assert_false, out_of_range_lt. lia.
Qed.

(** ** Power mode *)

Lemma set_power_run (p : Z) (d : SSD1306) :
  Z_in p [POWER_UP; POWER_DOWN] = true ->
  set_power p d
  = (outcome d, requested (per_byte_framing [p]) (with_power p d)).
Proof.
  intro Hp. unfold set_power.
  rewrite bind_assert_true, bind_modify by exact Hp.
  rewrite command_run; [reflexivity|].
  unfold Z_in in Hp. cbn [existsb] in Hp. cbn [forallb].
  apply orb_true_iff in Hp. destruct Hp as [Hp|Hp].
  - apply Z.eqb_eq in Hp. subst p. reflexivity.
  - apply orb_true_iff in Hp. destruct Hp as [Hp|Hp]; [|discriminate].
    apply Z.eqb_eq in Hp. subst p. reflexivity.
Qed.

(** C1, as the claim states it, fails: on a driver whose cached power mode
    is Down and whose bus fails the next request, [set_power(POWER_UP)]
    raises [OSError] and leaves the cached mode at Up, not at its prior
    value. *)
Lemma set_power_failure_changes_cache :
  power sample_instance = POWER_DOWN
  /\ serves 1 (i2c (with_i2c failing_bus sample_instance)) = false
  /\ fst (set_power POWER_UP (with_i2c failing_bus sample_instance))
     = Raise OSError
  /\ power (snd (set_power POWER_UP (with_i2c failing_bus sample_instance)))
     <> power (with_i2c failing_bus sample_instance).
Proof.
  split; [reflexivity|]. split; [reflexivity|]. split; [reflexivity|].
  vm_compute. discriminate.
Qed.

(** C1, amended.  When the bus fails the transfer issued by [set_power],
    for a valid argument, the [OSError] (BusTransferFailure) reaches the
    caller, the transfer was requested once and not retried, and the cached
    power mode already holds the requested value, because the method stores
    it before it sends. *)
Theorem set_power_bus_failure :
  forall d p,
    p = POWER_UP \/ p = POWER_DOWN ->
    serves 1 (i2c d) = false ->
    fst (set_power p d) = Raise OSError
    /\ power (snd (set_power p d)) = p
    /\ issued (set_power p) d = [(devid d, [DC_CMD; p])].
Proof.
  intros d p Hp Hs.
  assert (Hin : Z_in p [POWER_UP; POWER_DOWN] = true)
    by (destruct Hp; subst p; reflexivity).
  pose proof (set_power_run p d Hin) as E.
  split; [|split].
  - rewrite E. unfold outcome. simpl. now rewrite Hs.
  - rewrite E. reflexivity.
  - exact (issued_requested_from _ _ _ _ _ E eq_refl eq_refl).
Qed.

Lemma set_power_bus_failure_witness :
  fst (set_power POWER_UP (with_i2c failing_bus sample_instance))
  = Raise OSError
  /\ power (snd (set_power POWER_UP (with_i2c failing_bus sample_instance)))
     = POWER_UP
  /\ issued (set_power POWER_UP) (with_i2c failing_bus sample_instance)
     = [(0x3c, [0x80; 0xaf])].
Proof.
  apply (set_power_bus_failure (with_i2c failing_bus sample_instance)
                               POWER_UP).
  - left. reflexivity.
  - reflexivity.
Defined.

(** ** Oscillator frequency and clock divider *)

Lemma nibble_cases (x : Z) :
  0 <= x <= 15 ->
  x = 0 \/ x = 1 \/ x = 2 \/ x = 3 \/ x = 4 \/ x = 5 \/ x = 6 \/ x = 7 \/
  x = 8 \/ x = 9 \/ x = 10 \/ x = 11 \/ x = 12 \/ x = 13 \/ x = 14 \/ x = 15.
Proof. lia. Qed.

Ltac each_nibble H :=
  apply nibble_cases in H;
  repeat (destruct H as [H|H]; [rewrite H|]); [..|rewrite H].

(** The register byte holds the frequency in its high nibble and the
    divider minus one in its low nibble. *)
Lemma osc_register_byte (f v : Z) :
  0 <= f <= 15 -> 0 <= v <= 15 ->
  is_byte (Z.lor (Z.shiftl f 4) v) = true
  /\ Z.shiftr (Z.lor (Z.shiftl f 4) v) 4 = f
  /\ Z.land (Z.lor (Z.shiftl f 4) v) 15 = v.
Proof.
  intros Hf Hv. each_nibble Hf; each_nibble Hv; repeat split.
Qed.

Lemma _set_oscfreqclockdiv_run (d : SSD1306) :
  0 <= osc_freq d <= 15 -> 1 <= clock_div d <= 16 ->
  _set_oscfreqclockdiv d
  = (outcome d,
     requested (per_byte_framing
                  [0xd5; Z.lor (Z.shiftl (osc_freq d) 4) (clock_div d - 1)])
               d).
Proof.
  intros Hf Hc. unfold _set_oscfreqclockdiv. rewrite !bind_gets.
  apply command_run. cbn [forallb].
  destruct (osc_register_byte (osc_freq d) (clock_div d - 1)) as [Hb _];
    [lia | lia |].
  now rewrite Hb.
Qed.

(** C6. For every freq in 0..15 and div in 1..16: with these two values
    cached, the combined register write hands the bus the two command bytes
    [0xD5, (freq<<4)|(div-1)] in one request; storing them through the
    setters the way the constructor does ([set_osc_freq(freq, False)] then
    [set_clock_div(div)]) caches both and issues that one request; and the
    value byte carries both fields, freq in bits 7..4 and div-1 in bits
    3..0. *)
Theorem oscfreq_clockdiv_encoding :
  forall d freq div,
    0 <= freq <= 15 -> 1 <= div <= 16 ->
    (osc_freq d = freq -> clock_div d = div ->
     issued _set_oscfreqclockdiv d
     = [(devid d, per_byte_framing
                    [0xd5; Z.lor (Z.shiftl freq 4) (div - 1)])])
    /\ issued (set_osc_freq freq false ;; set_clock_div div true) d
       = [(devid d, per_byte_framing
                      [0xd5; Z.lor (Z.shiftl freq 4) (div - 1)])]
    /\ osc_freq (snd ((set_osc_freq freq false ;; set_clock_div div true) d))
       = freq
    /\ clock_div (snd ((set_osc_freq freq false ;; set_clock_div div true) d))
       = div
    /\ Z.shiftr (Z.lor (Z.shiftl freq 4) (div - 1)) 4 = freq
    /\ Z.land (Z.lor (Z.shiftl freq 4) (div - 1)) 15 = div - 1.
Proof.
  intros d freq div Hf Hd.
  assert (E : (set_osc_freq freq false ;; set_clock_div div true) d
              = (outcome d,
                 requested (per_byte_framing
                              [0xd5; Z.lor (Z.shiftl freq 4) (div - 1)])
                           (with_clock_div div (with_osc_freq freq d)))).
  { unfold set_osc_freq, set_clock_div.
    assert (S1 : (assert_ ((0 <=? freq) && (freq <? 16)) ;;
                  modify (with_osc_freq freq) ;; ret tt) d
                 = (Ok tt, with_osc_freq freq d)).
    { rewrite bind_assert_true by (apply in_range_lt; lia). reflexivity. }
    rewrite (bind_run _ _ _ _ _ S1).
    assert (Hc : (0 <? div) && (div <=? 16) = true).
    { apply andb_true_iff. split; [apply Z.ltb_lt|apply Z.leb_le]; lia. }
    rewrite bind_assert_true, bind_modify by exact Hc.
    rewrite _set_oscfreqclockdiv_run; [reflexivity| |]; simpl; lia. }
  split; [|split; [|split; [|split; [|split]]]].
  - intros Ef Ec. subst freq div.
    exact (issued_requested _ _ _ _ (_set_oscfreqclockdiv_run d Hf Hd)).
  - exact (issued_requested_from _ _ _ _ _ E eq_refl eq_refl).
  - rewrite E. reflexivity.
  - rewrite E. reflexivity.
  - apply (osc_register_byte freq (div - 1)); lia.
  - apply (osc_register_byte freq (div - 1)); lia.
Qed.

Lemma oscfreq_clockdiv_encoding_witness :
  issued _set_oscfreqclockdiv sample_instance
  = [(0x3c, [0x80; 0xd5; 0x80; 0x80])]
  /\ issued (set_osc_freq 15 false ;; set_clock_div 16 true) sample_instance
     = [(0x3c, [0x80; 0xd5; 0x80; 0xff])].
Proof.
  split.
  - destruct (oscfreq_clockdiv_encoding sample_instance 8 1) as [H _];
      [lia | lia |].
    apply H; reflexivity.
  - destruct (oscfreq_clockdiv_encoding sample_instance 15 16)
      as [_ [H _]]; [lia | lia |].
    exact H.
Defined.

(** ** Clearing the screen *)

Lemma zeros_bytes (n : Z) : forallb is_byte (zeros n) = true.
Proof.
  unfold zeros. induction (Z.to_nat n) as [|k IH]; [reflexivity|exact IH].
Qed.

Lemma zeros_length (n : Z) : List.length (zeros n) = Z.to_nat n.
Proof. unfold zeros. apply repeat_length. Qed.

Lemma zeros_all_zero (n : Z) : Forall (fun b => b = 0) (zeros n).
Proof.
  unfold zeros. induction (Z.to_nat n) as [|k IH]; constructor;
    [reflexivity | exact IH].
Qed.

Lemma clear_run (d : SSD1306) :
  0 < width d -> 8 <= height d -> serves 3 (i2c d) = true ->
  clear d
  = (Ok tt,
     requested (per_byte_framing (position_bytes 0 0))
       (requested (data_framing (zeros (height d * width d / 8)))
          (requested (per_byte_framing (position_bytes 0 0)) d))).
Proof.
  intros Hw Hh Hs.
  assert (Hpage : 0 <= 0 < height d / 8).
  { split; [lia|]. apply Z.div_str_pos. lia. }
  assert (Hcol : 0 <= 0 < width d) by lia.
  set (pos := per_byte_framing (position_bytes 0 0)).
  set (d1 := requested pos d).
  set (d2 := requested (data_framing (zeros (height d * width d / 8))) d1).
  assert (S1 : position 0 0 d = (Ok tt, d1)).
  { rewrite position_run by (assumption || lia).
    now rewrite (outcome_served 2 d Hs). }
  assert (Hs1 : serves 2 (i2c d1) = true) by exact (serves_requested 2 _ d Hs).
  assert (Hs2 : serves 1 (i2c d2) = true)
    by exact (serves_requested 1 _ d1 Hs1).
  unfold clear. rewrite (bind_run _ _ _ _ _ S1), !bind_gets.
  assert (S2 : data (zeros (height d1 * width d1 / 8)) d1 = (Ok tt, d2)).
  { rewrite data_run by apply zeros_bytes.
    now rewrite (outcome_served 1 d1 Hs1). }
  rewrite (bind_run _ _ _ _ _ S2).
  rewrite position_run by (assumption || lia).
  now rewrite (outcome_served 0 d2 Hs2).
Qed.

(** C8. On an instance whose dimensions admit position (0,0) (the
    constructor sets 128x64) and whose bus serves the three requests,
    [clear] returns normally and hands the bus exactly: the positioning
    command for (0,0), then one data transfer whose payload is exactly
    height*width/8 bytes, all zero (1024 for 128x64), then the positioning
    command for (0,0) again, which leaves the cursor at (0,0). *)
Theorem clear_transmits_zero_fill :
  forall d,
    0 < width d -> 8 <= height d -> serves 3 (i2c d) = true ->
    fst (clear d) = Ok tt
    /\ issued clear d
       = [ (devid d, per_byte_framing (position_bytes 0 0));
           (devid d, data_framing (zeros (height d * width d / 8)));
           (devid d, per_byte_framing (position_bytes 0 0)) ]
    /\ List.length (zeros (height d * width d / 8))
       = Z.to_nat (height d * width d / 8)
    /\ Forall (fun b => b = 0) (zeros (height d * width d / 8))
    /\ (width d = 128 -> height d = 64 ->
        data_framing (zeros (height d * width d / 8)) = zero_fill).
Proof.
  intros d Hw Hh Hs. pose proof (clear_run d Hw Hh Hs) as E.
  split; [now rewrite E|]. split.
  - apply (issued_of_wire clear d
             [ (devid d, per_byte_framing (position_bytes 0 0));
               (devid d, data_framing (zeros (height d * width d / 8)));
               (devid d, per_byte_framing (position_bytes 0 0)) ]).
    rewrite E. simpl snd. rewrite !wire_requested. reflexivity.
  - split; [apply zeros_length|]. split; [apply zeros_all_zero|].
    intros -> ->. reflexivity.
Qed.

Lemma clear_transmits_zero_fill_witness :
  fst (clear sample_driver) = Ok tt
  /\ issued clear sample_driver
     = [ (0x3c, per_byte_framing (position_bytes 0 0));
         (0x3c, zero_fill);
         (0x3c, per_byte_framing (position_bytes 0 0)) ].
Proof.
  destruct (clear_transmits_zero_fill sample_driver) as [H1 [H2 _]].
  - vm_compute. reflexivity.
  - vm_compute. discriminate.
  - vm_compute. reflexivity.
  - split; [exact H1|]. rewrite H2. vm_compute. reflexivity.
Defined.

(** ** Construction *)

(** The initialization sequence, byte for byte. *)
Lemma init_sequence_bytes :
  init_sequence
  = [ [0x80; 0xae];
      [0x80; 0xa8; 0x80; 0x3f];
      [0x80; 0xd3; 0x80; 0x00];
      [0x80; 0x40];
      [0x80; 0xa0];
      [0x80; 0xc0];
      [0x80; 0xda; 0x80; 0x12];
      [0x80; 0x81; 0x80; 0xff];
      [0x80; 0xd5; 0x80; 0x80];
      [0x80; 0x8d; 0x80; 0x14];
      [0x80; 0x20; 0x80; 0x00];
      [0x80; 0xd9; 0x80; 0xf1];
      [0x80; 0xdb; 0x80; 0x40];
      [0x80; 0xa4; 0x80; 0xa6; 0x80; 0xaf];
      [0x80; 0x21; 0x80; 0x00; 0x80; 0x7f; 0x80; 0x22; 0x80; 0x00; 0x80; 0x07];
      0x40 :: repeat 0 1024%nat;
      [0x80; 0x21; 0x80; 0x00; 0x80; 0x7f;
       0x80; 0x22; 0x80; 0x00; 0x80; 0x07] ].
Proof. reflexivity. Qed.





(** ** The framing discipline, method by method *)

Section Framed.

Lemma framed_quiet {A} (m : M A) :
  (forall d, i2c (snd (m d)) = i2c d) -> framed_run m.
Proof.
  intros H d. exists []. rewrite H. split; [reflexivity|constructor].
Qed.

Lemma framed_ret {A} (a : A) : framed_run (ret a).
Proof. apply framed_quiet. reflexivity. Qed.

Lemma framed_raise {A} (e : exn) : framed_run (@raise A e).
Proof. apply framed_quiet. reflexivity. Qed.

Lemma framed_gets {A} (f : SSD1306 -> A) : framed_run (gets f).
Proof. apply framed_quiet. reflexivity. Qed.

Lemma framed_modify (f : SSD1306 -> SSD1306) :
  (forall d, i2c (f d) = i2c d) -> framed_run (modify f).
Proof. intro H. apply framed_quiet. exact H. Qed.

Lemma framed_bind {A B} (m : M A) (k : A -> M B) :
  framed_run m -> (forall a, framed_run (k a)) -> framed_run (bind m k).
Proof.
  intros Hm Hk d. unfold bind.
  destruct (Hm d) as [new1 [W1 F1]].
  destruct (m d) as [[a|e] d1]; simpl in W1.
  - destruct (Hk a d1) as [new2 [W2 F2]].
    exists (new2 ++ new1). rewrite W2, W1, app_assoc.
    split; [reflexivity|]. apply Forall_app. now split.
  - exists new1. now split.
Qed.

Lemma framed_assert_bind {B} (c : bool) (k : M B) :
  (c = true -> framed_run k) -> framed_run (assert_ c ;; k).
Proof.
  intro Hk. destruct c.
  - apply framed_bind; [apply framed_ret | intros _; now apply Hk].
  - intro d. exists []. split; [reflexivity|constructor].
Qed.

Lemma framed_bitmap (arr : list Z) (dc : Z) :
  well_framed (dc :: arr) -> framed_run (bitmap arr dc).
Proof.
  intros Hf d. destruct (forallb is_byte (dc :: arr)) eqn:Hb.
  - rewrite (bitmap_run arr dc d Hb). exists [(devid d, dc :: arr)].
    split; [apply wire_requested|]. constructor; [exact Hf|constructor].
  - rewrite (bitmap_rejected arr dc d Hb). exists [].
    split; [reflexivity|constructor].
Qed.

Lemma framed_command (arr : list Z) :
  arr <> [] -> framed_run (command arr).
Proof.
  intro Hne. unfold command. rewrite command_loop_framing.
  apply framed_bitmap. rewrite command_buffer.
  destruct arr as [|b arr]; [contradiction|].
  left. exists (b :: arr). split; [discriminate|reflexivity].
Qed.

Lemma framed_data (arr : list Z) : framed_run (data arr).
Proof. apply framed_bitmap. right. exists arr. reflexivity. Qed.

End Framed.

Create HintDb framed.

(** Syntax-directed: one lemma per combinator, the hint database for the
    methods already treated. *)
Ltac framed :=
  repeat lazymatch goal with
    | |- framed_run (bind (assert_ _) _) => apply framed_assert_bind; intro
    | |- framed_run (bind _ _) => apply framed_bind; [|intro]
    | |- framed_run (ret _) => apply framed_ret
    | |- framed_run (raise _) => apply framed_raise
    | |- framed_run (gets _) => apply framed_gets
    | |- framed_run (modify _) => apply framed_modify; intro; reflexivity
    | |- framed_run (data _) => apply framed_data
    | |- framed_run (command _) => apply framed_command; discriminate
    | |- framed_run (if ?b then _ else _) => destruct b
    | |- framed_run (match ?p with Some _ => _ | None => _ end) =>
        destruct p
    | |- framed_run _ => solve [auto with framed nocore]
    end.

Lemma framed__set_oscfreqclockdiv : framed_run _set_oscfreqclockdiv.
Proof. unfold _set_oscfreqclockdiv. framed. Qed.

Lemma framed_position (x y : Z) : framed_run (position x y).
Proof. unfold position. framed. Qed.

Lemma framed_set_power (p : Z) : framed_run (set_power p).
Proof. unfold set_power. framed. Qed.

Lemma framed_set_display (m : list Z) : framed_run (set_display m).
Proof.
  unfold set_display. apply framed_assert_bind. intro H.
  apply framed_bind; [apply framed_modify; intro; reflexivity|intro].
  apply framed_command. intros ->. discriminate H.
Qed.

Lemma framed_pwr_value (v : Z) : framed_run (pwr_value v).
Proof. unfold pwr_value. framed. Qed.

Lemma framed_rst_value (v : Z) : framed_run (rst_value v).
Proof. unfold rst_value. framed. Qed.

Lemma framed_sleep_ms (ms : Z) : framed_run (sleep_ms ms).
Proof. unfold sleep_ms. framed. Qed.

Lemma framed_sleep_us (us : Z) : framed_run (sleep_us us).
Proof. unfold sleep_us. framed. Qed.

#[local] Hint Resolve framed__set_oscfreqclockdiv framed_position
  framed_set_power framed_set_display framed_pwr_value framed_rst_value
  framed_sleep_ms framed_sleep_us : framed.

Lemma framed_clear : framed_run clear.
Proof. unfold clear. framed. Qed.

#[local] Hint Resolve framed_clear : framed.

Lemma framed_operation (c : call) :
  is_operation c = true -> framed_run (invoke c).
Proof.
  destruct c; simpl; intro H; try discriminate H;
    try solve [auto with framed nocore].
  - unfold set_vcomh_deselect_level. framed.
  - unfold set_precharge_period. framed.
  - unfold set_com_pins_hw_config. framed.
  - unfold set_com_output_scan_dir_remap_enabled. framed.
  - unfold set_segment_remap_enabled. framed.
  - unfold set_chargepump_enabled. framed.
  - unfold set_osc_freq. framed.
  - unfold set_clock_div. framed.
  - unfold set_mux_ratio. framed.
  - unfold set_disp_offset. framed.
  - unfold set_disp_start_line. framed.
  - unfold set_addressing. framed.
  - unfold set_contrast. framed.
  - unfold power_on. framed.
  - unfold reset. framed.
  - unfold power_off. framed.
Qed.

Lemma framed_i2c_init (baudrate : Z) (pins : option (string * string)) :
  framed_run (i2c_init baudrate pins).
Proof. intro d. exists []. split; [reflexivity|constructor]. Qed.

Lemma framed_pwr_init : framed_run pwr_init.
Proof. unfold pwr_init. framed. Qed.

(** The constructor is made of operations. *)
Lemma framed_init_body (pins : string * string) :
  framed_run (init_body pins).
Proof.
  pose proof (fun c => framed_operation c) as Hop.
  unfold init_body.
  apply framed_bind; [apply framed_i2c_init|intro].
  apply framed_bind; [apply framed_pwr_init|intro].
  do 2 (apply framed_bind; [apply framed_modify; intro; reflexivity|intro]).
  apply framed_bind; [exact (Hop Call_power_on eq_refl)|intro].
  apply framed_bind; [exact (Hop (Call_set_power POWER_DOWN) eq_refl)|intro].
  apply framed_bind; [apply framed_gets|intro h].
  apply framed_bind; [exact (Hop (Call_set_mux_ratio h) eq_refl)|intro].
  apply framed_bind; [exact (Hop (Call_set_disp_offset 0) eq_refl)|intro].
  apply framed_bind; [exact (Hop (Call_set_disp_start_line 0) eq_refl)|intro].
  apply framed_bind;
    [exact (Hop (Call_set_segment_remap_enabled false) eq_refl)|intro].
  apply framed_bind;
    [exact (Hop (Call_set_com_output_scan_dir_remap_enabled false) eq_refl)
    |intro].
  apply framed_bind;
    [exact (Hop (Call_set_com_pins_hw_config true false) eq_refl)|intro].
  apply framed_bind; [exact (Hop (Call_set_contrast 255) eq_refl)|intro].
  apply framed_bind; [exact (Hop (Call_set_osc_freq 8 false) eq_refl)|intro].
  apply framed_bind; [exact (Hop (Call_set_clock_div 1 true) eq_refl)|intro].
  apply framed_bind;
    [exact (Hop (Call_set_chargepump_enabled true) eq_refl)|intro].
  apply framed_bind;
    [exact (Hop (Call_set_addressing ADDRESSING_HORIZ) eq_refl)|intro].
  apply framed_bind;
    [exact (Hop (Call_set_precharge_period 1 15) eq_refl)|intro].
  apply framed_bind;
    [exact (Hop (Call_set_vcomh_deselect_level 4) eq_refl)|intro].
  apply framed_bind;
    [exact (Hop (Call_set_display DISPLAY_NORMAL) eq_refl)|intro].
  exact (Hop Call_clear eq_refl).
Qed.

Lemma issued_framed {A} (m : M A) (d : SSD1306) :
  framed_run m -> Forall (fun t => well_framed (snd t)) (issued m d).
Proof.
  intro H. destruct (H d) as [new [W F]].
  rewrite (issued_of_wire m d new W).
  apply Forall_forall. intros t Ht. apply in_rev in Ht.
  revert t Ht. now apply Forall_forall.
Qed.

(** C3. For every sequence of command bytes, [command] hands the bus one
    buffer in which each command byte is individually preceded by the 0x80
    control byte (the empty sequence goes out as the control byte alone);
    for every sequence of pixel bytes, [data] hands the bus one buffer, the
    0x40 control byte once and then the payload as one block; and every
    buffer that any register or lifecycle operation, or the constructor,
    hands to the bus, with any arguments and on any instance, has one of
    these two forms. *)
Theorem framing_discipline :
  (forall d arr, forallb is_byte arr = true ->
     issued (command arr) d
     = [(devid d, match arr with
                  | [] => [DC_CMD]
                  | _ :: _ => per_byte_framing arr
                  end)]) /\
  (forall d arr, forallb is_byte arr = true ->
     issued (data arr) d = [(devid d, data_framing arr)]) /\
  (forall c d, is_operation c = true ->
     Forall (fun t => well_framed (snd t)) (issued (invoke c) d)) /\
  (forall bus pins pwr devid,
     Forall (fun t => well_framed (snd t))
            (issued (init_body pins) (new_instance bus pwr devid))).
Proof.
  split; [|split; [|split]].
  - intros d arr Hb.
    exact (issued_requested _ _ _ _ (command_run arr d Hb)).
  - intros d arr Hb.
    exact (issued_requested _ _ _ _ (data_run arr d Hb)).
  - intros c d Hc. apply issued_framed, framed_operation, Hc.
  - intros bus pins pwr devid. apply issued_framed, framed_init_body.
Qed.

Lemma framing_discipline_witness :
  issued (command [0xa8; 0x3f]) sample_instance
  = [(0x3c, [0x80; 0xa8; 0x80; 0x3f])]
  /\ issued (data [0xff; 0x00; 0x81]) sample_instance
     = [(0x3c, [0x40; 0xff; 0x00; 0x81])]
  /\ Forall (fun t => well_framed (snd t))
            (issued (invoke Call_power_off) sample_driver).
Proof.
  destruct framing_discipline as [Hc [Hd [Ho _]]].
  split; [|split].
  - apply (Hc sample_instance [0xa8; 0x3f]). reflexivity.
  - apply (Hd sample_instance [0xff; 0x00; 0x81]). reflexivity.
  - apply (Ho Call_power_off sample_driver). reflexivity.
Defined.

(** ** The missing [rst] attribute *)

Section RstAbsent.

Lemma keeps_quiet {A} (m : M A) :
  (forall d, rst (snd (m d)) = rst d) -> keeps_rst_absent m.
Proof. intros H d Hd. now rewrite H. Qed.

Lemma keeps_ret {A} (a : A) : keeps_rst_absent (ret a).
Proof. apply keeps_quiet. reflexivity. Qed.

Lemma keeps_raise {A} (e : exn) : keeps_rst_absent (@raise A e).
Proof. apply keeps_quiet. reflexivity. Qed.

Lemma keeps_gets {A} (f : SSD1306 -> A) : keeps_rst_absent (gets f).
Proof. apply keeps_quiet. reflexivity. Qed.

Lemma keeps_modify (f : SSD1306 -> SSD1306) :
  (forall d, rst (f d) = rst d) -> keeps_rst_absent (modify f).
Proof. intro H. apply keeps_quiet. exact H. Qed.

Lemma keeps_bind {A B} (m : M A) (k : A -> M B) :
  keeps_rst_absent m -> (forall a, keeps_rst_absent (k a)) ->
  keeps_rst_absent (bind m k).
Proof.
  intros Hm Hk d Hd. unfold bind. specialize (Hm d Hd).
  destruct (m d) as [[a|e] d1]; simpl in Hm.
  - now apply Hk.
  - exact Hm.
Qed.

Lemma keeps_assert (c : bool) : keeps_rst_absent (assert_ c).
Proof. destruct c; [apply keeps_ret | apply keeps_raise]. Qed.

Lemma keeps_i2c_writeto (addr : Z) (buf : list Z) :
  keeps_rst_absent (i2c_writeto addr buf).
Proof.
  apply keeps_quiet. intro d. unfold i2c_writeto.
  destruct (bus_request addr buf (i2c d)). reflexivity.
Qed.

Lemma keeps_struct_pack_B (arr : list Z) :
  keeps_rst_absent (struct_pack_B arr).
Proof.
  unfold struct_pack_B.
  destruct (forallb is_byte arr); [apply keeps_ret | apply keeps_raise].
Qed.

(** Without the attribute, the lookup in [rst_value] raises and nothing
    changes. *)
Lemma keeps_rst_value (v : Z) : keeps_rst_absent (rst_value v).
Proof. intros d Hd. unfold rst_value, bind, gets. now rewrite Hd. Qed.

End RstAbsent.

Create HintDb keeps.

#[local] Hint Resolve keeps_assert keeps_i2c_writeto keeps_struct_pack_B
  keeps_rst_value : keeps.

Ltac keeps :=
  repeat lazymatch goal with
    | |- keeps_rst_absent (bind _ _) => apply keeps_bind; [|intro]
    | |- keeps_rst_absent (ret _) => apply keeps_ret
    | |- keeps_rst_absent (raise _) => apply keeps_raise
    | |- keeps_rst_absent (gets _) => apply keeps_gets
    | |- keeps_rst_absent (modify _) => apply keeps_modify; intro; reflexivity
    | |- keeps_rst_absent (if ?b then _ else _) => destruct b
    | |- keeps_rst_absent (match ?p with Some _ => _ | None => _ end) =>
        destruct p
    | |- keeps_rst_absent _ => solve [auto with keeps nocore]
    end.

Lemma keeps_bitmap (arr : list Z) (dc : Z) : keeps_rst_absent (bitmap arr dc).
Proof. unfold bitmap, print. keeps. Qed.

#[local] Hint Resolve keeps_bitmap : keeps.

Lemma keeps_command (arr : list Z) : keeps_rst_absent (command arr).
Proof. unfold command. keeps. Qed.

Lemma keeps_data (arr : list Z) : keeps_rst_absent (data arr).
Proof. unfold data. keeps. Qed.

#[local] Hint Resolve keeps_command keeps_data : keeps.

Lemma keeps__set_oscfreqclockdiv : keeps_rst_absent _set_oscfreqclockdiv.
Proof. unfold _set_oscfreqclockdiv. keeps. Qed.

Lemma keeps_position (x y : Z) : keeps_rst_absent (position x y).
Proof. unfold position. keeps. Qed.

Lemma keeps_set_power (p : Z) : keeps_rst_absent (set_power p).
Proof. unfold set_power. keeps. Qed.

Lemma keeps_pwr_value (v : Z) : keeps_rst_absent (pwr_value v).
Proof. unfold pwr_value. keeps. Qed.

Lemma keeps_sleep_ms (ms : Z) : keeps_rst_absent (sleep_ms ms).
Proof. unfold sleep_ms. keeps. Qed.

Lemma keeps_sleep_us (us : Z) : keeps_rst_absent (sleep_us us).
Proof. unfold sleep_us. keeps. Qed.

#[local] Hint Resolve keeps__set_oscfreqclockdiv keeps_position
  keeps_set_power keeps_pwr_value keeps_sleep_ms keeps_sleep_us : keeps.

Lemma keeps_clear : keeps_rst_absent clear.
Proof. unfold clear. keeps. Qed.

#[local] Hint Resolve keeps_clear : keeps.

Lemma keeps_invoke (c : call) : keeps_rst_absent (invoke c).
Proof.
  destruct c; simpl; try solve [auto with keeps nocore].
  - unfold set_vcomh_deselect_level. keeps.
  - unfold set_precharge_period. keeps.
  - unfold set_com_pins_hw_config. keeps.
  - unfold set_com_output_scan_dir_remap_enabled. keeps.
  - unfold set_segment_remap_enabled. keeps.
  - unfold set_chargepump_enabled. keeps.
  - unfold set_osc_freq. keeps.
  - unfold set_clock_div. keeps.
  - unfold set_mux_ratio. keeps.
  - unfold set_disp_offset. keeps.
  - unfold set_disp_start_line. keeps.
  - unfold set_addressing. keeps.
  - unfold set_display. keeps.
  - unfold set_contrast. keeps.
  - unfold power_on. keeps.
  - unfold reset. keeps.
  - unfold power_off. keeps.
Qed.

Lemma session_rst_absent (cs : list call) (d : SSD1306) :
  rst d = None -> rst (session cs d) = None.
Proof.
  revert d. induction cs as [|c cs IH]; intros d Hd; [exact Hd|].
  simpl. apply IH. now apply keeps_invoke.
Qed.

Lemma keeps_i2c_init (baudrate : Z) (pins : option (string * string)) :
  keeps_rst_absent (i2c_init baudrate pins).
Proof. unfold i2c_init. keeps. Qed.

Lemma keeps_pwr_init : keeps_rst_absent pwr_init.
Proof. unfold pwr_init. keeps. Qed.

#[local] Hint Resolve keeps_i2c_init keeps_pwr_init : keeps.

Lemma keeps_init_body (pins : string * string) :
  keeps_rst_absent (init_body pins).
Proof.
  pose proof keeps_invoke as Hop.
  unfold init_body.
  do 4 (apply keeps_bind; [keeps|intro]).
  apply keeps_bind; [exact (Hop Call_power_on)|intro].
  apply keeps_bind; [exact (Hop (Call_set_power POWER_DOWN))|intro].
  apply keeps_bind; [apply keeps_gets|intro h].
  apply keeps_bind; [exact (Hop (Call_set_mux_ratio h))|intro].
  apply keeps_bind; [exact (Hop (Call_set_disp_offset 0))|intro].
  apply keeps_bind; [exact (Hop (Call_set_disp_start_line 0))|intro].
  apply keeps_bind; [exact (Hop (Call_set_segment_remap_enabled false))|intro].
  apply keeps_bind;
    [exact (Hop (Call_set_com_output_scan_dir_remap_enabled false))|intro].
  apply keeps_bind;
    [exact (Hop (Call_set_com_pins_hw_config true false))|intro].
  apply keeps_bind; [exact (Hop (Call_set_contrast 255))|intro].
  apply keeps_bind; [exact (Hop (Call_set_osc_freq 8 false))|intro].
  apply keeps_bind; [exact (Hop (Call_set_clock_div 1 true))|intro].
  apply keeps_bind; [exact (Hop (Call_set_chargepump_enabled true))|intro].
  apply keeps_bind; [exact (Hop (Call_set_addressing ADDRESSING_HORIZ))|intro].
  apply keeps_bind; [exact (Hop (Call_set_precharge_period 1 15))|intro].
  apply keeps_bind; [exact (Hop (Call_set_vcomh_deselect_level 4))|intro].
  apply keeps_bind; [exact (Hop (Call_set_display DISPLAY_NORMAL))|intro].
  exact (Hop Call_clear).
Qed.

Lemma init_rst_absent (bus : I2C) (pins : string * string)
      (pwr : option Pin) (devid : Z) :
  rst (snd (__init__ bus pins pwr devid)) = None.
Proof. apply keeps_init_body. reflexivity. Qed.

Lemma reset_raises (d : SSD1306) :
  rst d = None -> reset d = (Raise AttributeError, d).
Proof. intro H. unfold reset, rst_value, bind, gets. now rewrite H. Qed.

Lemma legacy_reset_raises (d : SSD1306) :
  rst d = None -> Legacy.reset d = (Raise AttributeError, d).
Proof. intro H. unfold Legacy.reset, rst_value, bind, gets. now rewrite H. Qed.

Lemma legacy_power_on_raises (d : SSD1306) :
  rst d = None ->
  Legacy.power_on d = (Raise AttributeError, snd (pwr_value 1 d)).
Proof.
  intro H. unfold Legacy.power_on.
  assert (Hk : rst (snd (pwr_value 1 d)) = None)
    by (apply keeps_pwr_value; exact H).
  assert (Hr : fst (pwr_value 1 d) = Ok tt).
  { unfold pwr_value, bind, gets. destruct (pwr d); reflexivity. }
  destruct (pwr_value 1 d) as [r d1] eqn:E. simpl in Hk, Hr. subst r.
  rewrite (bind_run _ _ _ _ _ E). simpl. now apply legacy_reset_raises.
Qed.

Lemma legacy_init_result (bus : I2C) (pwr : option Pin) (devid : Z) :
  fst (Legacy.__init__ bus pwr devid)
  = Raise (if pwr_init_completes pwr then AttributeError else NameError)
  /\ wire (i2c (snd (Legacy.__init__ bus pwr devid))) = wire bus
  /\ rst (snd (Legacy.__init__ bus pwr devid)) = None.
Proof.
  destruct bus as [bb bp fl wr].
  destruct pwr as [[[|] cf pv]|]; repeat split.
Qed.

(** With the attribute in place the body of [reset] runs to its end: the
    pulse, then the three cached fields back to their post-reset values. *)
Lemma reset_with_rst_attached (d : SSD1306) (pin : Pin) :
  rst d = Some pin ->
  fst (reset d) = Ok tt
  /\ power (snd (reset d)) = POWER_DOWN
  /\ addressing (snd (reset d)) = ADDRESSING_HORIZ
  /\ display_mode (snd (reset d)) = DISPLAY_NORMAL
  /\ rst (snd (reset d)) = Some (pin_set 1 pin)
  /\ elapsed_us (snd (reset d)) = elapsed_us d + 100.
Proof.
  intro H. unfold reset, rst_value, sleep_us, bind, gets, modify. rewrite H.
  simpl. repeat split.
Qed.

(** C10. No constructor assigns [rst]: the instance the current constructor
    works on has no such attribute, whatever the constructor returns and
    whatever calls a client makes afterwards, and neither has the instance
    of the older constructor.  On an instance without [rst], [reset] of
    either variant raises [AttributeError] at its first statement and leaves
    the instance as it was: no pulse, no delay, no cached field touched.  So
    does [reset] on every constructed driver after every session.  In the
    older variant [power_on] fails with the same error once it has asserted
    the power pin, and construction never returns a driver: it raises that
    [AttributeError] whenever it gets as far as [power_on] (no power pin, or
    a WiPy style one), before anything is handed to the bus. *)
Theorem reset_always_raises :
  (forall bus pins pwr devid cs,
     rst (session cs (snd (__init__ bus pins pwr devid))) = None) /\
  (forall bus pwr devid, rst (snd (Legacy.__init__ bus pwr devid)) = None) /\
  (forall d, rst d = None ->
     reset d = (Raise AttributeError, d)
     /\ Legacy.reset d = (Raise AttributeError, d)) /\
  (forall bus pins pwr devid cs,
     reset (session cs (snd (__init__ bus pins pwr devid)))
     = (Raise AttributeError,
        session cs (snd (__init__ bus pins pwr devid)))) /\
  (forall d, rst d = None ->
     Legacy.power_on d = (Raise AttributeError, snd (pwr_value 1 d))) /\
  (forall bus pwr devid, pwr_init_completes pwr = true ->
     fst (Legacy.__init__ bus pwr devid) = Raise AttributeError
     /\ wire (i2c (snd (Legacy.__init__ bus pwr devid))) = wire bus) /\
  (forall bus pwr devid, fst (Legacy.__init__ bus pwr devid) <> Ok tt).
Proof.
  split; [|split; [|split; [|split; [|split; [|split]]]]].
  - intros. apply session_rst_absent, init_rst_absent.
  - intros. apply legacy_init_result.
  - intros d H. split; [now apply reset_raises|now apply legacy_reset_raises].
  - intros. apply reset_raises, session_rst_absent, init_rst_absent.
  - exact legacy_power_on_raises.
  - intros bus pwr devid Hp.
    destruct (legacy_init_result bus pwr devid) as [Hr [Hw _]].
    rewrite Hp in Hr. now split.
  - intros bus pwr devid.
    destruct (legacy_init_result bus pwr devid) as [Hr _].
    rewrite Hr. discriminate.
Qed.

Lemma reset_always_raises_witness :
  reset sample_driver = (Raise AttributeError, sample_driver)
  /\ Legacy.reset sample_driver = (Raise AttributeError, sample_driver)
  /\ Legacy.power_on sample_instance
     = (Raise AttributeError, sample_instance)
  /\ fst (Legacy.__init__ sample_bus None 0x3c) = Raise AttributeError.
Proof.
  destruct reset_always_raises as [_ [_ [Hr [_ [Hp [Hi _]]]]]].
  split; [|split; [|split]].
  - apply (Hr sample_driver). reflexivity.
  - apply (Hr sample_driver). reflexivity.
  - apply (Hp sample_instance). reflexivity.
  - apply (Hi sample_bus None 0x3c). reflexivity.
Defined.

(** On a constructed driver that was then set to power Up and vertical
    addressing, [reset] raises [AttributeError] at its first statement and
    returns nothing: the cached power mode stays Up and the cached
    addressing mode stays Vertical. *)
Lemma reset_leaves_cache_stale :
  let d := session [Call_set_power POWER_UP;
                    Call_set_addressing ADDRESSING_VERT] sample_driver in
  power d = POWER_UP
  /\ addressing d = ADDRESSING_VERT
  /\ reset d = (Raise AttributeError, d)
  /\ power (snd (reset d)) <> POWER_DOWN
  /\ addressing (snd (reset d)) <> ADDRESSING_HORIZ.
Proof.
  split; [reflexivity|]. split; [reflexivity|].
  split; [apply reset_raises; reflexivity|].
  split; vm_compute; discriminate.
Qed.

(** C4. For every prior state of the instance, whenever a call of [reset]
    returns, the cached power mode is Down, the cached addressing mode is
    Horizontal and the cached display mode is Normal. *)
Theorem reset_resynchronizes_cache :
  forall d,
    fst (reset d) = Ok tt ->
    power (snd (reset d)) = POWER_DOWN
    /\ addressing (snd (reset d)) = ADDRESSING_HORIZ
    /\ display_mode (snd (reset d)) = DISPLAY_NORMAL.
Proof.
  intros d Hok. destruct (rst d) as [pin|] eqn:Hr.
  - destruct (reset_with_rst_attached d pin Hr) as [_ [Hp [Ha [Hd _]]]].
    now repeat split.
  - rewrite (reset_raises d Hr) in Hok. discriminate Hok.
Qed.

Lemma reset_resynchronizes_cache_witness :
  power sample_driver_in_use = POWER_UP
  /\ addressing sample_driver_in_use = ADDRESSING_VERT
  /\ fst (reset sample_driver_in_use) = Ok tt
  /\ power (snd (reset sample_driver_in_use)) = POWER_DOWN
  /\ addressing (snd (reset sample_driver_in_use)) = ADDRESSING_HORIZ
  /\ display_mode (snd (reset sample_driver_in_use)) = DISPLAY_NORMAL.
Proof.
  split; [reflexivity|]. split; [reflexivity|]. split; [reflexivity|].
  apply (reset_resynchronizes_cache sample_driver_in_use). reflexivity.
Defined.

(** * Further properties of the driver *)

(** ** The remaining register setters *)

Lemma in_range_le (lo hi x : Z) :
  lo <= x <= hi -> (lo <=? x) && (x <=? hi) = true.
Proof.
  intro H. apply andb_true_iff. split; apply Z.leb_le; lia.
Qed.

Lemma out_of_range_le (lo hi x : Z) :
  ~ (lo <= x <= hi) -> (lo <=? x) && (x <=? hi) = false.
Proof.
  intro H. apply andb_false_iff.
  destruct (Z.leb_spec lo x); [right; apply Z.leb_gt; lia | now left].
Qed.

Lemma in_range_lt_le (lo hi x : Z) :
  lo < x <= hi -> (lo <? x) && (x <=? hi) = true.
Proof.
  intro H. apply andb_true_iff. split; [apply Z.ltb_lt|apply Z.leb_le]; lia.
Qed.

Lemma out_of_range_lt_le (lo hi x : Z) :
  ~ (lo < x <= hi) -> (lo <? x) && (x <=? hi) = false.
Proof.
  intro H. apply andb_false_iff.
  destruct (Z.ltb_spec lo x); [right; apply Z.leb_gt; lia | now left].
Qed.

Lemma in_range_lt_lt (lo hi x : Z) :
  lo < x < hi -> (lo <? x) && (x <? hi) = true.
Proof.
  intro H. apply andb_true_iff. split; apply Z.ltb_lt; lia.
Qed.

Lemma out_of_range_lt_lt (lo hi x : Z) :
  ~ (lo < x < hi) -> (lo <? x) && (x <? hi) = false.
Proof.
  intro H. apply andb_false_iff.
  destruct (Z.ltb_spec lo x); [right; apply Z.ltb_ge; lia | now left].
Qed.

Lemma bytes_pair (a b : Z) :
  0 <= a <= 255 -> 0 <= b <= 255 -> forallb is_byte [a; b] = true.
Proof.
  intros Ha Hb. cbn [forallb].
  now rewrite (is_byte_range a Ha), (is_byte_range b Hb).
Qed.

(** X1. [set_contrast] sends [0x81, value] for every value in 0..255 and
    returns what the bus returns; any other value raises [AssertionError]
    with the instance, bus included, untouched. *)
Theorem set_contrast_encoding :
  (forall d value, 0 <= value <= 255 ->
     issued (set_contrast value) d
     = [(devid d, per_byte_framing [0x81; value])]
     /\ fst (set_contrast value d) = outcome d) /\
  (forall d value, ~ (0 <= value <= 255) ->
     set_contrast value d = (Raise AssertionError, d)).
Proof.
  split; intros d value H.
  - assert (E : set_contrast value d
                = (outcome d, requested (per_byte_framing [0x81; value]) d)).
    { unfold set_contrast.
      rewrite bind_assert_true by (apply in_range_le; exact H).
      apply command_run, bytes_pair; lia. }
    split; [exact (issued_requested _ _ _ _ E) | now rewrite E].
  - unfold set_contrast. apply bind_assert_false, out_of_range_le. exact H.
Qed.

Lemma set_contrast_encoding_witness :
  (issued (set_contrast 0x7f) sample_driver
   = [(0x3c, [0x80; 0x81; 0x80; 0x7f])]
   /\ fst (set_contrast 0x7f sample_driver) = Ok tt) /\
  set_contrast 256 sample_driver = (Raise AssertionError, sample_driver).
Proof.
  split.
  - apply (proj1 set_contrast_encoding sample_driver 0x7f). lia.
  - apply (proj2 set_contrast_encoding sample_driver 256). lia.
Defined.

(** X2. [set_mux_ratio] sends [0xA8, ratio-1] for every ratio in 16..64; any
    other ratio raises [AssertionError] with the instance untouched. *)
Theorem set_mux_ratio_encoding :
  (forall d ratio, 16 <= ratio <= 64 ->
     issued (set_mux_ratio ratio) d
     = [(devid d, per_byte_framing [0xa8; ratio - 1])]
     /\ fst (set_mux_ratio ratio d) = outcome d) /\
  (forall d ratio, ~ (16 <= ratio <= 64) ->
     set_mux_ratio ratio d = (Raise AssertionError, d)).
Proof.
  split; intros d ratio H.
  - assert (E : set_mux_ratio ratio d
                = (outcome d,
                   requested (per_byte_framing [0xa8; ratio - 1]) d)).
    { unfold set_mux_ratio.
      rewrite bind_assert_true by (apply in_range_le; exact H).
      apply command_run, bytes_pair; lia. }
    split; [exact (issued_requested _ _ _ _ E) | now rewrite E].
  - unfold set_mux_ratio. apply bind_assert_false, out_of_range_le. exact H.
Qed.

Lemma set_mux_ratio_encoding_witness :
  (issued (set_mux_ratio 32) sample_driver
   = [(0x3c, [0x80; 0xa8; 0x80; 0x1f])]
   /\ fst (set_mux_ratio 32 sample_driver) = Ok tt) /\
  set_mux_ratio 15 sample_driver = (Raise AssertionError, sample_driver).
Proof.
  split.
  - apply (proj1 set_mux_ratio_encoding sample_driver 32). lia.
  - apply (proj2 set_mux_ratio_encoding sample_driver 15). lia.
Defined.

(** Below 64, or-ing with 0x40 adds 64. *)
Lemma lor_0x40 (x : Z) : 0 <= x <= 63 -> Z.lor 0x40 x = 64 + x.
Proof.
  intro H.
  pose proof (Z.div_mod x 16 ltac:(lia)) as Hx.
  pose proof (Z.mod_pos_bound x 16 ltac:(lia)) as Hm.
  remember (x / 16) as q eqn:Eq. remember (x mod 16) as r eqn:Er.
  assert (Cq : q = 0 \/ q = 1 \/ q = 2 \/ q = 3) by lia.
  assert (Hr : 0 <= r <= 15) by lia.
  rewrite Hx. clear Hx Eq Er H Hm.
  each_nibble Hr;
    destruct Cq as [Cq|[Cq|[Cq|Cq]]]; rewrite Cq; reflexivity.
Qed.

(** X3. The start lines [set_disp_start_line] accepts are exactly 0..62: for
    these it sends the single command byte 0x40 + line; every other line,
    63 included, raises [AssertionError] with the instance untouched. *)
Theorem set_disp_start_line_encoding :
  (forall d line, 0 <= line <= 62 ->
     issued (set_disp_start_line line) d = [(devid d, [DC_CMD; 64 + line])]
     /\ fst (set_disp_start_line line d) = outcome d) /\
  (forall d line, ~ (0 <= line <= 62) ->
     set_disp_start_line line d = (Raise AssertionError, d)).
Proof.
  split; intros d line H.
  - assert (E : set_disp_start_line line d
                = (outcome d, requested [DC_CMD; 64 + line] d)).
    { unfold set_disp_start_line.
      rewrite bind_assert_true by (apply in_range_lt; lia).
      rewrite lor_0x40 by lia. apply command_run.
      cbn [forallb]. rewrite (is_byte_range (64 + line)) by lia.
      reflexivity. }
    split; [exact (issued_requested _ _ _ _ E) | now rewrite E].
  - unfold set_disp_start_line.
    apply bind_assert_false, out_of_range_lt. lia.
Qed.

Lemma set_disp_start_line_encoding_witness :
  (issued (set_disp_start_line 62) sample_driver = [(0x3c, [0x80; 0x7e])]
   /\ fst (set_disp_start_line 62 sample_driver) = Ok tt) /\
  set_disp_start_line 63 sample_driver
  = (Raise AssertionError, sample_driver).
Proof.
  split.
  - apply (proj1 set_disp_start_line_encoding sample_driver 62). lia.
  - apply (proj2 set_disp_start_line_encoding sample_driver 63). lia.
Defined.

(** X4. [set_precharge_period] sends [0xD9, (phase2<<4)|phase1] when both
    phases are in 1..15, and the value byte gives both back: phase2 in bits
    7..4, phase1 in bits 3..0.  If either phase is outside 1..15 it raises
    [AssertionError] with the instance untouched. *)
Theorem set_precharge_period_encoding :
  (forall d phase1 phase2, 1 <= phase1 <= 15 -> 1 <= phase2 <= 15 ->
     issued (set_precharge_period phase1 phase2) d
     = [(devid d,
         per_byte_framing [0xd9; Z.lor (Z.shiftl phase2 4) phase1])]
     /\ fst (set_precharge_period phase1 phase2 d) = outcome d
     /\ Z.shiftr (Z.lor (Z.shiftl phase2 4) phase1) 4 = phase2
     /\ Z.land (Z.lor (Z.shiftl phase2 4) phase1) 15 = phase1) /\
  (forall d phase1 phase2,
     ~ (1 <= phase1 <= 15) \/ ~ (1 <= phase2 <= 15) ->
     set_precharge_period phase1 phase2 d = (Raise AssertionError, d)).
Proof.
  split.
  - intros d p1 p2 H1 H2.
    destruct (osc_register_byte p2 p1) as [Hb [Hh Hl]]; [lia|lia|].
    assert (E : set_precharge_period p1 p2 d
                = (outcome d,
                   requested (per_byte_framing
                                [0xd9; Z.lor (Z.shiftl p2 4) p1]) d)).
    { unfold set_precharge_period.
      rewrite bind_assert_true by (apply in_range_lt_lt; lia).
      rewrite bind_assert_true by (apply in_range_lt_lt; lia).
      apply command_run. cbn [forallb]. now rewrite Hb. }
    split; [exact (issued_requested _ _ _ _ E)|].
    split; [now rewrite E|]. now split.
  - intros d p1 p2 H. unfold set_precharge_period.
    destruct (Z_lt_ge_dec 0 p1) as [Ha|Ha];
      [destruct (Z_lt_ge_dec p1 16) as [Hb|Hb]|].
    + rewrite bind_assert_true by (apply in_range_lt_lt; lia).
      apply bind_assert_false, out_of_range_lt_lt.
      destruct H as [H|H]; [exfalso; apply H; lia | lia].
    + apply bind_assert_false, out_of_range_lt_lt. lia.
    + apply bind_assert_false, out_of_range_lt_lt. lia.
Qed.

Lemma set_precharge_period_encoding_witness :
  issued (set_precharge_period 2 2) sample_driver
  = [(0x3c, [0x80; 0xd9; 0x80; 0x22])]
  /\ set_precharge_period 0 2 sample_driver
     = (Raise AssertionError, sample_driver)
  /\ set_precharge_period 2 16 sample_driver
     = (Raise AssertionError, sample_driver).
Proof.
  split; [|split].
  - destruct (proj1 set_precharge_period_encoding sample_driver 2 2)
      as [H _]; [lia | lia | exact H].
  - apply (proj2 set_precharge_period_encoding sample_driver 0 2).
    left. lia.
  - apply (proj2 set_precharge_period_encoding sample_driver 2 16).
    right. lia.
Defined.

(** X5. [set_com_pins_hw_config] accepts both flags in every combination and
    sends [0xDA, value], where the value byte has bit 1 set, bit 4 equal to
    the alternative-configuration flag and bit 5 equal to the left/right
    remap flag. *)
Theorem set_com_pins_hw_config_encoding :
  forall d alt lr,
    issued (set_com_pins_hw_config alt lr) d
    = [(devid d, per_byte_framing [0xda; com_pins_byte alt lr])]
    /\ fst (set_com_pins_hw_config alt lr d) = outcome d
    /\ Z.testbit (com_pins_byte alt lr) 1 = true
    /\ Z.testbit (com_pins_byte alt lr) 4 = alt
    /\ Z.testbit (com_pins_byte alt lr) 5 = lr.
Proof.
  intros d alt lr.
  assert (E : set_com_pins_hw_config alt lr d
              = (outcome d,
                 requested (per_byte_framing [0xda; com_pins_byte alt lr])
                           d)).
  { unfold set_com_pins_hw_config.
    rewrite !bind_assert_true by reflexivity.
    destruct alt, lr; apply command_run; reflexivity. }
  split; [exact (issued_requested _ _ _ _ E)|].
  split; [now rewrite E|].
  destruct alt, lr; repeat split.
Qed.

(** X6. The three flag setters accept both values of their flag and send
    one fixed encoding each: segment remap 0xA1 / 0xA0, COM scan direction
    0xC8 / 0xC0, charge pump [0x8D, 0x14] / [0x8D, 0x10]. *)
Theorem flag_setters_encoding :
  forall d status,
    issued (set_segment_remap_enabled status) d
    = [(devid d, [DC_CMD; if status then 0xa1 else 0xa0])]
    /\ issued (set_com_output_scan_dir_remap_enabled status) d
       = [(devid d, [DC_CMD; if status then 0xc8 else 0xc0])]
    /\ issued (set_chargepump_enabled status) d
       = [(devid d, [DC_CMD; 0x8d; DC_CMD; if status then 0x14 else 0x10])]
    /\ fst (set_segment_remap_enabled status d) = outcome d
    /\ fst (set_com_output_scan_dir_remap_enabled status d) = outcome d
    /\ fst (set_chargepump_enabled status d) = outcome d.
Proof.
  intros d status.
  assert (E1 : set_segment_remap_enabled status d
               = (outcome d,
                  requested [DC_CMD; if status then 0xa1 else 0xa0] d)).
  { unfold set_segment_remap_enabled.
    rewrite bind_assert_true by reflexivity.
    destruct status; apply command_run; reflexivity. }
  assert (E2 : set_com_output_scan_dir_remap_enabled status d
               = (outcome d,
                  requested [DC_CMD; if status then 0xc8 else 0xc0] d)).
  { unfold set_com_output_scan_dir_remap_enabled.
    rewrite bind_assert_true by reflexivity.
    destruct status; apply command_run; reflexivity. }
  assert (E3 : set_chargepump_enabled status d
               = (outcome d,
                  requested [DC_CMD; 0x8d; DC_CMD;
                             if status then 0x14 else 0x10] d)).
  { unfold set_chargepump_enabled.
    rewrite bind_assert_true by reflexivity.
    destruct status; apply command_run; reflexivity. }
  split; [exact (issued_requested _ _ _ _ E1)|].
  split; [exact (issued_requested _ _ _ _ E2)|].
  split; [exact (issued_requested _ _ _ _ E3)|].
  now rewrite E1, E2, E3.
Qed.

Lemma Z_in_3 (x a b c : Z) :
  Z_in x [a; b; c] = true <-> x = a \/ x = b \/ x = c.
Proof.
  unfold Z_in. cbn [existsb]. rewrite !orb_true_iff, !Z.eqb_eq.
  intuition discriminate.
Qed.

Lemma Z_in_2 (x a b : Z) : Z_in x [a; b] = true <-> x = a \/ x = b.
Proof.
  unfold Z_in. cbn [existsb]. rewrite !orb_true_iff, !Z.eqb_eq.
  intuition discriminate.
Qed.

Lemma not_true_false (b : bool) : b <> true -> b = false.
Proof. destruct b; [intro H; now elim H | reflexivity]. Qed.

(** X7. [set_addressing] accepts exactly the three addressing modes 0, 1
    and 2: it caches the mode and sends [0x20, mode].  Any other argument
    raises [AssertionError], the cached mode and the bus untouched. *)
Theorem set_addressing_encoding :
  (forall d addr,
     addr = ADDRESSING_HORIZ \/ addr = ADDRESSING_VERT
     \/ addr = ADDRESSING_PAGE ->
     issued (set_addressing addr) d
     = [(devid d, per_byte_framing [0x20; addr])]
     /\ addressing (snd (set_addressing addr d)) = addr
     /\ fst (set_addressing addr d) = outcome d) /\
  (forall d addr,
     ~ (addr = ADDRESSING_HORIZ \/ addr = ADDRESSING_VERT
        \/ addr = ADDRESSING_PAGE) ->
     set_addressing addr d = (Raise AssertionError, d)).
Proof.
  split; intros d addr H.
  - assert (E : set_addressing addr d
                = (outcome d,
                   requested (per_byte_framing [0x20; addr])
                             (with_addressing addr d))).
    { unfold set_addressing.
      rewrite bind_assert_true, bind_modify by (apply Z_in_3; exact H).
      rewrite command_run; [reflexivity|].
      destruct H as [->|[->| ->]]; reflexivity. }
    split; [exact (issued_requested_from _ _ _ _ _ E eq_refl eq_refl)|].
    now rewrite E.
  - unfold set_addressing. apply bind_assert_false, not_true_false.
    intro Hin. apply H. now apply Z_in_3.
Qed.

Lemma set_addressing_encoding_witness :
  (issued (set_addressing ADDRESSING_PAGE) sample_driver
   = [(0x3c, [0x80; 0x20; 0x80; 0x02])]
   /\ addressing (snd (set_addressing ADDRESSING_PAGE sample_driver)) = 2) /\
  set_addressing 3 sample_driver = (Raise AssertionError, sample_driver).
Proof.
  split.
  - destruct (proj1 set_addressing_encoding sample_driver ADDRESSING_PAGE)
      as [H1 [H2 _]]; [right; right; reflexivity|].
    split; [exact H1 | exact H2].
  - apply (proj2 set_addressing_encoding sample_driver 3).
    unfold ADDRESSING_HORIZ, ADDRESSING_VERT, ADDRESSING_PAGE. lia.
Defined.

(** X8. [set_power] accepts exactly the two opcodes 0xAF and 0xAE: it caches
    the mode and sends that one command byte.  Any other argument raises
    [AssertionError], the cached mode and the bus untouched. *)
Theorem set_power_encoding :
  (forall d p, p = POWER_UP \/ p = POWER_DOWN ->
     issued (set_power p) d = [(devid d, [DC_CMD; p])]
     /\ power (snd (set_power p d)) = p
     /\ fst (set_power p d) = outcome d) /\
  (forall d p, ~ (p = POWER_UP \/ p = POWER_DOWN) ->
     set_power p d = (Raise AssertionError, d)).
Proof.
  split; intros d p H.
  - pose proof (set_power_run p d (proj2 (Z_in_2 _ _ _) H)) as E.
    split; [exact (issued_requested_from _ _ _ _ _ E eq_refl eq_refl)|].
    now rewrite E.
  - unfold set_power. apply bind_assert_false, not_true_false.
    intro Hin. apply H. now apply Z_in_2.
Qed.

Lemma set_power_encoding_witness :
  (issued (set_power POWER_UP) sample_driver = [(0x3c, [0x80; 0xaf])]
   /\ power (snd (set_power POWER_UP sample_driver)) = 0xaf) /\
  set_power 0xa5 sample_driver = (Raise AssertionError, sample_driver).
Proof.
  split.
  - destruct (proj1 set_power_encoding sample_driver POWER_UP)
      as [H1 [H2 _]]; [left; reflexivity|].
    split; [exact H1 | exact H2].
  - apply (proj2 set_power_encoding sample_driver 0xa5).
    unfold POWER_UP, POWER_DOWN. lia.
Defined.

Lemma list_Z_eqb_eq (a b : list Z) : list_Z_eqb a b = true <-> a = b.
Proof.
  revert b. induction a as [|x a IH]; intros [|y b]; simpl;
    try (split; [discriminate|discriminate]); [tauto|].
  rewrite andb_true_iff, Z.eqb_eq, IH. split.
  - intros [-> ->]. reflexivity.
  - intro H. injection H as -> ->. now split.
Qed.

Lemma display_mode_cases (m : list Z) :
  list_in m [DISPLAY_BLANK; DISPLAY_ALL; DISPLAY_NORMAL; DISPLAY_INVERSE]
  = true
  <-> m = DISPLAY_BLANK \/ m = DISPLAY_ALL \/ m = DISPLAY_NORMAL
      \/ m = DISPLAY_INVERSE.
Proof.
  unfold list_in. cbn [existsb].
  rewrite !orb_true_iff, !list_Z_eqb_eq. intuition discriminate.
Qed.

Lemma set_display_run (m : list Z) (d : SSD1306) :
  m = DISPLAY_BLANK \/ m = DISPLAY_ALL \/ m = DISPLAY_NORMAL
  \/ m = DISPLAY_INVERSE ->
  set_display m d
  = (outcome d, requested (per_byte_framing m) (with_display_mode m d)).
Proof.
  intro H. unfold set_display.
  rewrite bind_assert_true, bind_modify by (apply display_mode_cases, H).
  rewrite command_run.
  - destruct H as [->|[->|[->| ->]]]; reflexivity.
  - destruct H as [->|[->|[->| ->]]]; reflexivity.
Qed.

(** X9. [set_display] accepts exactly the four mode lists.  It caches the
    mode and sends its bytes under command framing; the cached power mode is
    not touched, although Normal contains the power-up opcode 0xAF and Blank
    is the power-down opcode 0xAE.  A second call with the same mode hands
    the bus the same buffer as the first.  Any other list raises
    [AssertionError] with the instance untouched. *)
Theorem set_display_encoding :
  (forall d m,
     m = DISPLAY_BLANK \/ m = DISPLAY_ALL \/ m = DISPLAY_NORMAL
     \/ m = DISPLAY_INVERSE ->
     issued (set_display m) d = [(devid d, per_byte_framing m)]
     /\ display_mode (snd (set_display m d)) = m
     /\ power (snd (set_display m d)) = power d
     /\ fst (set_display m d) = outcome d
     /\ issued (set_display m) (snd (set_display m d))
        = issued (set_display m) d) /\
  In POWER_UP DISPLAY_NORMAL /\ In POWER_DOWN DISPLAY_BLANK /\
  (forall d m,
     ~ (m = DISPLAY_BLANK \/ m = DISPLAY_ALL \/ m = DISPLAY_NORMAL
        \/ m = DISPLAY_INVERSE) ->
     set_display m d = (Raise AssertionError, d)).
Proof.
  split; [|split; [|split]].
  - intros d m H. pose proof (set_display_run m d H) as E.
    split; [exact (issued_requested_from _ _ _ _ _ E eq_refl eq_refl)|].
    split; [now rewrite E|]. split; [now rewrite E|].
    split; [now rewrite E|].
    pose proof (set_display_run m (snd (set_display m d)) H) as E2.
    rewrite (issued_requested_from _ _ _ _ _ E2 eq_refl eq_refl).
    rewrite (issued_requested_from _ _ _ _ _ E eq_refl eq_refl).
    now rewrite E.
  - simpl. tauto.
  - simpl. tauto.
  - intros d m H. unfold set_display.
    apply bind_assert_false, not_true_false.
    intro Hin. apply H. now apply display_mode_cases.
Qed.

Lemma set_display_encoding_witness :
  (issued (set_display DISPLAY_INVERSE) sample_driver
   = [(0x3c, [0x80; 0xa7])]
   /\ issued (set_display DISPLAY_NORMAL)
             (snd (set_display DISPLAY_NORMAL sample_driver))
      = issued (set_display DISPLAY_NORMAL) sample_driver) /\
  set_display [0xa6] sample_driver = (Raise AssertionError, sample_driver).
Proof.
  destruct set_display_encoding as [Hv [_ [_ Hr]]].
  split; [split|].
  - destruct (Hv sample_driver DISPLAY_INVERSE) as [H _];
      [right; right; right; reflexivity | exact H].
  - destruct (Hv sample_driver DISPLAY_NORMAL) as [_ [_ [_ [_ H]]]];
      [right; right; left; reflexivity | exact H].
  - apply (Hr sample_driver [0xa6]).
    intros [H|[H|[H|H]]]; discriminate H.
Defined.

(** X10. The oscillator frequency and the clock divider are staged: with
    [set=False] a valid value is cached and nothing is sent; with
    [set=True] the combined register write goes out with the new value and
    the other field as cached.  A value outside 0..15, respectively 1..16,
    raises [AssertionError] and neither the cache nor the bus changes. *)
Theorem staged_oscillator_writes :
  (forall d f, 0 <= f <= 15 ->
     set_osc_freq f false d = (Ok tt, with_osc_freq f d)) /\
  (forall d c, 1 <= c <= 16 ->
     set_clock_div c false d = (Ok tt, with_clock_div c d)) /\
  (forall d f, 0 <= f <= 15 -> 1 <= clock_div d <= 16 ->
     issued (set_osc_freq f true) d
     = [(devid d,
         per_byte_framing [0xd5; Z.lor (Z.shiftl f 4) (clock_div d - 1)])]
     /\ osc_freq (snd (set_osc_freq f true d)) = f) /\
  (forall d c, 1 <= c <= 16 -> 0 <= osc_freq d <= 15 ->
     issued (set_clock_div c true) d
     = [(devid d,
         per_byte_framing [0xd5; Z.lor (Z.shiftl (osc_freq d) 4) (c - 1)])]
     /\ clock_div (snd (set_clock_div c true d)) = c) /\
  (forall d f set, ~ (0 <= f <= 15) ->
     set_osc_freq f set d = (Raise AssertionError, d)) /\
  (forall d c set, ~ (1 <= c <= 16) ->
     set_clock_div c set d = (Raise AssertionError, d)).
Proof.
  split; [|split; [|split; [|split; [|split]]]].
  - intros d f H. unfold set_osc_freq.
    rewrite bind_assert_true by (apply in_range_lt; lia). reflexivity.
  - intros d c H. unfold set_clock_div.
    rewrite bind_assert_true by (apply in_range_lt_le; lia). reflexivity.
  - intros d f Hf Hc.
    assert (E : set_osc_freq f true d
                = (outcome d,
                   requested
                     (per_byte_framing
                        [0xd5; Z.lor (Z.shiftl f 4) (clock_div d - 1)])
                     (with_osc_freq f d))).
    { unfold set_osc_freq.
      rewrite bind_assert_true, bind_modify by (apply in_range_lt; lia).
      rewrite _set_oscfreqclockdiv_run; [reflexivity| |]; simpl; lia. }
    split; [exact (issued_requested_from _ _ _ _ _ E eq_refl eq_refl)|].
    now rewrite E.
  - intros d c Hc Hf.
    assert (E : set_clock_div c true d
                = (outcome d,
                   requested
                     (per_byte_framing
                        [0xd5; Z.lor (Z.shiftl (osc_freq d) 4) (c - 1)])
                     (with_clock_div c d))).
    { unfold set_clock_div.
      rewrite bind_assert_true, bind_modify by (apply in_range_lt_le; lia).
      rewrite _set_oscfreqclockdiv_run; [reflexivity| |]; simpl; lia. }
    split; [exact (issued_requested_from _ _ _ _ _ E eq_refl eq_refl)|].
    now rewrite E.
  - intros d f set H. unfold set_osc_freq.
    apply bind_assert_false, out_of_range_lt. lia.
  - intros d c set H. unfold set_clock_div.
    apply bind_assert_false, out_of_range_lt_le. lia.
Qed.

Lemma staged_oscillator_writes_witness :
  set_osc_freq 15 false sample_instance
  = (Ok tt, with_osc_freq 15 sample_instance)
  /\ set_clock_div 16 false sample_instance
     = (Ok tt, with_clock_div 16 sample_instance)
  /\ issued (set_osc_freq 15 true) sample_instance
     = [(0x3c, [0x80; 0xd5; 0x80; 0xf0])]
  /\ issued (set_clock_div 16 true) sample_instance
     = [(0x3c, [0x80; 0xd5; 0x80; 0x8f])]
  /\ set_osc_freq 16 true sample_instance
     = (Raise AssertionError, sample_instance)
  /\ set_clock_div 0 true sample_instance
     = (Raise AssertionError, sample_instance).
Proof.
  destruct staged_oscillator_writes as [H1 [H2 [H3 [H4 [H5 H6]]]]].
  split; [|split; [|split; [|split; [|split]]]].
  - apply (H1 sample_instance 15). lia.
  - apply (H2 sample_instance 16). lia.
  - destruct (H3 sample_instance 15) as [H _];
      [lia | simpl; lia | exact H].
  - destruct (H4 sample_instance 16) as [H _];
      [lia | simpl; lia | exact H].
  - apply (H5 sample_instance 16 true). lia.
  - apply (H6 sample_instance 0 true). lia.
Defined.

(** ** Reasoning along the statements of a method *)

Section Obeys.

Context (R : SSD1306 -> option exn -> SSD1306 -> Prop) `{Sequential R}.

Lemma obeys_ret {A} (a : A) : obeys R (ret a).
Proof. intro d. apply seq_skip. Qed.

Lemma obeys_gets {A} (f : SSD1306 -> A) : obeys R (gets f).
Proof. intro d. apply seq_skip. Qed.

Lemma obeys_raise {A} (e : exn) :
  (forall d, R d (Some e) d) -> obeys R (@raise A e).
Proof. intros He d. apply He. Qed.

Lemma obeys_modify (f : SSD1306 -> SSD1306) :
  (forall d, R d None (f d)) -> obeys R (modify f).
Proof. intros Hf d. apply Hf. Qed.

Lemma obeys_bind {A B} (m : M A) (k : A -> M B) :
  obeys R m -> (forall a, obeys R (k a)) -> obeys R (bind m k).
Proof.
  intros Hm Hk d. unfold bind. specialize (Hm d).
  destruct (m d) as [[a|e] d1]; simpl in Hm.
  - exact (seq_then d d1 _ _ Hm (Hk a d1)).
  - exact Hm.
Qed.

Lemma obeys_assert_bind {B} (c : bool) (k : M B) :
  (forall d, R d (Some AssertionError) d) ->
  (c = true -> obeys R k) -> obeys R (assert_ c ;; k).
Proof.
  intros He Hk. destruct c.
  - intro d. exact (Hk eq_refl d).
  - intro d. apply He.
Qed.

End Obeys.

#[local] Instance same_geometry_sequential : Sequential same_geometry.
Proof.
  split.
  - intro d. repeat split.
  - intros d d1 d2 o [W1 [H1 D1]] [W2 [H2 D2]].
    unfold same_geometry. rewrite W2, H2, D2. now repeat split.
Qed.

#[local] Instance lifecycle_untouched_sequential :
  Sequential lifecycle_untouched.
Proof.
  split.
  - intro d. repeat split.
  - intros d d1 d2 o [P1 [R1 E1]] [P2 [R2 E2]].
    unfold lifecycle_untouched. rewrite P2, R2, E2. now repeat split.
Qed.

#[local] Instance fault_accounting_sequential : Sequential fault_accounting.
Proof.
  split.
  - intro d. reflexivity.
  - intros d d1 d2 o H1 H2. unfold fault_accounting in *.
    destruct o as [[]|]; now rewrite H2.
Qed.

#[local] Instance addressed_sequential : Sequential addressed.
Proof.
  split.
  - intro d. exists []. repeat split. constructor.
  - intros d d1 d2 o [n1 [W1 [F1 D1]]] [n2 [W2 [F2 D2]]].
    exists (n2 ++ n1). rewrite W2, W1, app_assoc, D2, D1.
    split; [reflexivity|]. split; [|reflexivity].
    apply Forall_app. split; [|exact F1].
    rewrite D1 in F2. exact F2.
Qed.

#[local] Instance steady_sequential : Sequential steady.
Proof.
  split.
  - intro d. repeat split. discriminate.
  - intros d d1 d2 o [_ [W1 H1]] [N2 [W2 H2]].
    unfold steady. rewrite W2, H2. now repeat split.
Qed.

#[local] Instance keeps_cache_in_domain_sequential :
  Sequential keeps_cache_in_domain.
Proof.
  split.
  - intros d Hd. exact Hd.
  - intros d d1 d2 o H1 H2 Hd. exact (H2 (H1 Hd)).
Qed.

Create HintDb methods.

#[local] Hint Unfold invoke set_power set_vcomh_deselect_level
  set_precharge_period set_com_pins_hw_config
  set_com_output_scan_dir_remap_enabled set_segment_remap_enabled
  set_chargepump_enabled _set_oscfreqclockdiv set_osc_freq set_clock_div
  set_mux_ratio set_disp_offset set_disp_start_line set_addressing
  set_display set_contrast position clear sleep_ms sleep_us pwr_value
  rst_value power_on reset power_off command data bitmap print
  struct_pack_B init_body i2c_init pwr_init : methods.

Create HintDb obeys.

(** One rule per statement form; [side] settles what the relation asks of
    an assignment or of a raised exception. *)
Ltac obeys_with side :=
  repeat lazymatch goal with
    | |- obeys _ (bind (assert_ _) _) =>
        apply obeys_assert_bind; [side | intro]
    | |- obeys _ (bind (gets devid) _) =>
        first [ solve [auto with obeys nocore]
              | apply obeys_bind; [exact _| |intro] ]
    | |- obeys _ (bind _ _) => apply obeys_bind; [exact _| |intro]
    | |- obeys _ (ret _) => apply obeys_ret; exact _
    | |- obeys _ (raise _) => apply obeys_raise; side
    | |- obeys _ (gets _) => apply obeys_gets; exact _
    | |- obeys _ (modify _) => apply obeys_modify; side
    | |- obeys _ (if ?b then _ else _) => destruct b
    | |- obeys _ (match ?p with Some _ => _ | None => _ end) => destruct p
    | |- obeys _ (let _ := _ in _) => cbv zeta
    | |- obeys _ _ => solve [auto with obeys nocore]
    end.

(** *** Dimensions and device address *)

Lemma geometry_i2c_writeto (addr : Z) (buf : list Z) :
  obeys same_geometry (i2c_writeto addr buf).
Proof.
  intro d. unfold i2c_writeto.
  destruct (bus_request addr buf (i2c d)). repeat split.
Qed.

#[local] Hint Resolve geometry_i2c_writeto : obeys.

Lemma geometry_invoke (c : call) : obeys same_geometry (invoke c).
Proof.
  destruct c; repeat autounfold with methods;
    obeys_with ltac:(intro; repeat split).
Qed.

Lemma geometry_init_body (pins : string * string) :
  obeys same_geometry (init_body pins).
Proof.
  repeat autounfold with methods. obeys_with ltac:(intro; repeat split).
Qed.

Lemma geometry_session (cs : list call) (d : SSD1306) :
  width (session cs d) = width d
  /\ height (session cs d) = height d
  /\ devid (session cs d) = devid d.
Proof.
  revert d. induction cs as [|c cs IH]; intro d; [now repeat split|].
  simpl. destruct (IH (snd (invoke c d))) as [W [Hh D]].
  destruct (geometry_invoke c d) as [W1 [H1 D1]].
  rewrite W, Hh, D. now repeat split.
Qed.

Lemma constructed_devid (bus : I2C) (pins : string * string)
      (ppin : option Pin) (addr : Z) (cs : list call) :
  devid (session cs (snd (__init__ bus pins ppin addr))) = addr.
Proof.
  destruct (geometry_session cs (snd (__init__ bus pins ppin addr)))
    as [_ [_ D]].
  destruct (geometry_init_body pins (new_instance bus ppin addr))
    as [_ [_ D0]].
  rewrite D. unfold __init__. now rewrite D0.
Qed.

(** X11. No method changes the dimensions or the device address: after the
    constructor, whatever it returned, the instance is 128x64 at the given
    address, and it stays so through every session of calls. *)
Theorem geometry_is_fixed :
  forall bus pins pwr addr cs,
    width (session cs (snd (__init__ bus pins pwr addr))) = 128
    /\ height (session cs (snd (__init__ bus pins pwr addr))) = 64
    /\ devid (session cs (snd (__init__ bus pins pwr addr))) = addr.
Proof.
  intros bus pins ppin addr cs.
  destruct (geometry_session cs (snd (__init__ bus pins ppin addr)))
    as [W [Hh D]].
  destruct (geometry_init_body pins (new_instance bus ppin addr))
    as [W0 [H0 D0]].
  rewrite W, Hh, D. unfold __init__. rewrite W0, H0, D0. now repeat split.
Qed.

(** *** Bus failures *)

Lemma accounting_i2c_writeto (addr : Z) (buf : list Z) :
  obeys fault_accounting (i2c_writeto addr buf).
Proof.
  intro d. unfold i2c_writeto, bus_request, fault_accounting, pending.
  destruct d as [? ? ? ? ? ? ? ? [bb bp fl wr] ? ? ? ?]. simpl.
  destruct fl as [|[|n] rest]; reflexivity.
Qed.

#[local] Hint Resolve accounting_i2c_writeto : obeys.

Lemma accounting_invoke (c : call) : obeys fault_accounting (invoke c).
Proof.
  destruct c; repeat autounfold with methods;
    obeys_with ltac:(intro; reflexivity).
Qed.

Lemma accounting_result {A} (m : M A) (d : SSD1306) :
  obeys fault_accounting m ->
  (fst (m d) = Raise OSError -> S (pending (snd (m d))) = pending d)
  /\ (fst (m d) <> Raise OSError -> pending (snd (m d)) = pending d).
Proof.
  intro H. specialize (H d). unfold fault_accounting in H.
  destruct (fst (m d)) as [a|e]; simpl in H.
  - split; [discriminate | intros _; exact H].
  - destruct e; split; try discriminate; try (intros _; exact H);
      intro N; now elim N.
Qed.

(** X12. A failure of the bus is never swallowed and never retried: a call
    raises [OSError] exactly when the bus has spent one scheduled failure
    during it, and no call spends more than one.  On a bus with no failure
    in store, no call raises [OSError]. *)
Theorem bus_failures_surface :
  forall c d,
    (fst (invoke c d) = Raise OSError ->
     S (pending (snd (invoke c d))) = pending d)
    /\ (fst (invoke c d) <> Raise OSError ->
        pending (snd (invoke c d)) = pending d)
    /\ (faults (i2c d) = [] -> fst (invoke c d) <> Raise OSError).
Proof.
  intros c d.
  destruct (accounting_result (invoke c) d (accounting_invoke c)) as [H1 H2].
  split; [exact H1|]. split; [exact H2|].
  intros Hf He. specialize (H1 He). unfold pending in H1 at 2.
  rewrite Hf in H1. discriminate H1.
Qed.

Lemma bus_failures_surface_witness :
  S (pending (snd (invoke Call_clear (with_i2c failing_bus sample_driver))))
  = pending (with_i2c failing_bus sample_driver)
  /\ pending (snd (invoke (Call_position 200 0) sample_driver))
     = pending sample_driver
  /\ fst (invoke Call_power_off sample_driver) <> Raise OSError.
Proof.
  split; [|split].
  - apply (bus_failures_surface Call_clear
             (with_i2c failing_bus sample_driver)). reflexivity.
  - apply (bus_failures_surface (Call_position 200 0) sample_driver).
    vm_compute. discriminate.
  - apply (bus_failures_surface Call_power_off sample_driver). reflexivity.
Defined.

(** *** Where the requests go *)

Lemma addressed_send (buf : list Z) :
  obeys addressed (addr <- gets devid ;; i2c_writeto addr buf).
Proof.
  intro d. unfold bind, gets, i2c_writeto, bus_request, addressed.
  destruct d as [? ? dev ? ? ? ? ? [bb bp fl wr] ? ? ? ?]. simpl.
  exists [(dev, buf)].
  destruct fl as [|[|n] rest]; simpl;
    (split; [reflexivity|]; split; [|reflexivity]);
    constructor; [reflexivity|constructor|reflexivity|constructor
                 |reflexivity|constructor].
Qed.

#[local] Hint Resolve addressed_send : obeys.

Ltac addressed_side :=
  intro; exists []; split; [reflexivity|]; split; [constructor|reflexivity].

Lemma addressed_invoke (c : call) : obeys addressed (invoke c).
Proof.
  destruct c; repeat autounfold with methods; obeys_with addressed_side.
Qed.

Lemma addressed_init_body (pins : string * string) :
  obeys addressed (init_body pins).
Proof.
  repeat autounfold with methods. obeys_with addressed_side.
Qed.

Lemma addressed_session (cs : list call) (d : SSD1306) :
  exists new,
    wire (i2c (session cs d)) = new ++ wire (i2c d)
    /\ Forall (fun t => fst t = devid d) new.
Proof.
  revert d. induction cs as [|c cs IH]; intro d.
  - exists []. split; [reflexivity|constructor].
  - simpl. destruct (addressed_invoke c d) as [n1 [W1 [F1 D1]]].
    destruct (IH (snd (invoke c d))) as [n2 [W2 F2]].
    exists (n2 ++ n1). rewrite W2, W1, app_assoc. split; [reflexivity|].
    apply Forall_app. split; [|exact F1]. rewrite D1 in F2. exact F2.
Qed.

(** X13. The driver talks to one device only and never rewrites what it
    sent: through the constructor and every session of calls after it, the
    bus log keeps all it held and grows only by requests carrying the
    device address given to the constructor. *)
Theorem requests_go_to_devid :
  forall bus pins pwr addr cs,
    exists new,
      transfers (i2c (session cs (snd (__init__ bus pins pwr addr))))
      = transfers bus ++ new
      /\ Forall (fun t => fst t = addr) new.
Proof.
  intros bus pins pwr a cs.
  destruct (addressed_init_body pins (new_instance bus pwr a))
    as [n1 [W1 [F1 D1]]].
  destruct (addressed_session cs (snd (__init__ bus pins pwr a)))
    as [n2 [W2 F2]].
  unfold __init__ in *. rewrite D1 in F2. simpl in W1, F1, F2.
  exists (rev (n2 ++ n1)). unfold transfers.
  rewrite W2, W1, app_assoc, rev_app_distr. split; [reflexivity|].
  apply Forall_forall. intros t Ht. apply in_rev in Ht.
  revert t Ht. apply Forall_forall, Forall_app. now split.
Qed.

(** *** The cached fields stay in their domains *)

Lemma cache_i2c_writeto (addr : Z) (buf : list Z) :
  obeys keeps_cache_in_domain (i2c_writeto addr buf).
Proof.
  intros d Hd. unfold i2c_writeto.
  destruct (bus_request addr buf (i2c d)). exact Hd.
Qed.

#[local] Hint Resolve cache_i2c_writeto : obeys.

(** Guards of the setters, from booleans to inequalities. *)
Ltac guards :=
  repeat match goal with
    | H : _ && _ = true |- _ => apply andb_true_iff in H; destruct H
    | H : (_ <=? _) = true |- _ => apply Z.leb_le in H
    | H : (_ <? _) = true |- _ => apply Z.ltb_lt in H
    end.

Ltac cache_side :=
  let d := fresh "d" in
  let P := fresh "P" in
  intros d P; try exact P;
  destruct P as [? [? [? [? ?]]]];
  unfold cache_in_domain; simpl; guards;
  repeat split; solve [assumption | reflexivity | lia].

Lemma cache_invoke (c : call) : obeys keeps_cache_in_domain (invoke c).
Proof.
  destruct c; repeat autounfold with methods; obeys_with cache_side.
Qed.

Lemma cache_init_body (pins : string * string) :
  obeys keeps_cache_in_domain (init_body pins).
Proof.
  repeat autounfold with methods. obeys_with cache_side.
Qed.

Lemma cache_session (cs : list call) (d : SSD1306) :
  cache_in_domain d -> cache_in_domain (session cs d).
Proof.
  revert d. induction cs as [|c cs IH]; intros d Hd; [exact Hd|].
  simpl. apply IH. exact (cache_invoke c d Hd).
Qed.

(** X14. The cached register fields never leave their domains: after the
    constructor and through every session of calls, the cached power mode is
    one of the two power opcodes, the cached addressing mode is 0, 1 or 2,
    the cached display mode is one of the four mode lists, the cached
    oscillator frequency is in 0..15 and the cached clock divider in 1..16.
    So the combined oscillator write of such a driver always has a value
    that fits a byte and is handed to the bus. *)
Theorem cache_stays_in_domain :
  forall bus pins pwr addr cs,
    cache_in_domain (session cs (snd (__init__ bus pins pwr addr)))
    /\ issued _set_oscfreqclockdiv
              (session cs (snd (__init__ bus pins pwr addr)))
       = [(addr,
           per_byte_framing
             [0xd5;
              Z.lor
                (Z.shiftl
                   (osc_freq (session cs (snd (__init__ bus pins pwr addr))))
                   4)
                (clock_div (session cs (snd (__init__ bus pins pwr addr)))
                 - 1)])].
Proof.
  intros bus pins pwr a cs.
  assert (Hc : cache_in_domain (session cs (snd (__init__ bus pins pwr a)))).
  { apply cache_session. unfold __init__. apply cache_init_body.
    unfold cache_in_domain. simpl. repeat split; lia. }
  split; [exact Hc|].
  destruct Hc as [_ [_ [_ [Hf Hd]]]].
  rewrite (issued_requested _ _ _ _
             (_set_oscfreqclockdiv_run _ Hf Hd)).
  now rewrite (constructed_devid bus pins pwr a cs).
Qed.

(** *** Rejected arguments have no effect *)

Lemma steady_i2c_writeto (addr : Z) (buf : list Z) :
  obeys steady (i2c_writeto addr buf).
Proof.
  intro d. unfold i2c_writeto, bus_request.
  destruct (faults (i2c d)) as [|[|n] rest]; simpl;
    (split; [discriminate | split; reflexivity]).
Qed.

#[local] Hint Resolve steady_i2c_writeto : obeys.

Ltac steady_side := intro; split; [discriminate | split; reflexivity].

Lemma steady_command (arr : list Z) : obeys steady (command arr).
Proof. repeat autounfold with methods. obeys_with steady_side. Qed.

Lemma steady_data (arr : list Z) : obeys steady (data arr).
Proof. repeat autounfold with methods. obeys_with steady_side. Qed.

Lemma fails_fast_of_steady {A} (m : M A) :
  obeys steady m -> obeys fails_fast m.
Proof. intros H d He. destruct (H d) as [N _]. now elim N. Qed.

Lemma fails_fast_assert_bind {B} (c : bool) (k : M B) :
  obeys fails_fast k -> obeys fails_fast (assert_ c ;; k).
Proof.
  intros Hk d. destruct c; [exact (Hk d) | intros _; reflexivity].
Qed.

Lemma fails_fast_gets_bind {A B} (f : SSD1306 -> A) (k : A -> M B) :
  (forall a, obeys fails_fast (k a)) ->
  obeys fails_fast (x <- gets f ;; k x).
Proof. intros Hk d. exact (Hk (f d) d). Qed.

(** After the assertions at the head of a method, nothing asserts. *)
Ltac fails_fast :=
  repeat lazymatch goal with
    | |- obeys fails_fast (bind (assert_ _) _) => apply fails_fast_assert_bind
    | |- obeys fails_fast (bind (gets _) _) =>
        apply fails_fast_gets_bind; intro
    | |- obeys fails_fast _ =>
        apply fails_fast_of_steady; obeys_with steady_side
    end.

Lemma position_guarded (x y : Z) (d : SSD1306) :
  position x y d
  = if position_guard x y d
    then command (position_bytes x y) d
    else (Raise AssertionError, d).
Proof.
  unfold position, position_guard. rewrite bind_gets.
  destruct ((0 <=? x) && (x <? width d)) eqn:G1.
  - rewrite bind_assert_true, bind_gets by reflexivity.
    destruct ((0 <=? y) && (y <? height d / 8)) eqn:G2; reflexivity.
  - reflexivity.
Qed.

Lemma position_guard_steady (x y : Z) (d d' : SSD1306) (o : option exn) :
  steady d o d' -> position_guard x y d' = position_guard x y d.
Proof. intros [_ [W Hh]]. unfold position_guard. now rewrite W, Hh. Qed.

(** Once the first [position] of [clear] has passed its assertions, nothing
    in [clear] asserts. *)
Lemma clear_guarded (d : SSD1306) :
  position_guard 0 0 d = true ->
  steady d (raised (fst (clear d))) (snd (clear d)).
Proof.
  intro G.
  assert (P : position 0 0 d = command (position_bytes 0 0) d)
    by now rewrite position_guarded, G.
  pose proof (steady_command (position_bytes 0 0) d) as S1.
  unfold clear.
  destruct (command (position_bytes 0 0) d) as [[u|e] d1];
    [rewrite (bind_run _ _ _ _ _ P)
    |rewrite (bind_raise _ _ _ _ _ P); exact S1].
  simpl in S1. rewrite !bind_gets.
  pose proof (steady_data (zeros (height d1 * width d1 / 8)) d1) as S2.
  destruct (data (zeros (height d1 * width d1 / 8)) d1) as [[u2|e2] d2] eqn:D;
    [rewrite (bind_run _ _ _ _ _ D)
    |rewrite (bind_raise _ _ _ _ _ D); exact (seq_then _ _ _ _ S1 S2)].
  pose proof (seq_then _ _ _ _ S1 S2) as S12. simpl in S12.
  rewrite position_guarded, (position_guard_steady 0 0 d d2 None S12), G.
  exact (seq_then _ _ _ _ S12 (steady_command (position_bytes 0 0) d2)).
Qed.

Lemma clear_unguarded (d : SSD1306) :
  position_guard 0 0 d = false -> clear d = (Raise AssertionError, d).
Proof.
  intro G. unfold clear. apply bind_raise. now rewrite position_guarded, G.
Qed.

Lemma fails_fast_clear : obeys fails_fast clear.
Proof.
  intros d He. destruct (position_guard 0 0 d) eqn:G.
  - destruct (clear_guarded d G) as [N _]. now elim N.
  - now rewrite (clear_unguarded d G).
Qed.

Lemma steady_power_off_tail :
  obeys steady (set_power POWER_DOWN ;; sleep_ms 10 ;; pwr_value 0).
Proof.
  unfold set_power.
  change (assert_ (Z_in POWER_DOWN [POWER_UP; POWER_DOWN]))
    with (@ret unit tt).
  repeat autounfold with methods. obeys_with steady_side.
Qed.

Lemma fails_fast_power_off : obeys fails_fast power_off.
Proof.
  intros d He. unfold power_off in *. destruct (position_guard 0 0 d) eqn:G.
  - exfalso. revert He. unfold bind at 1.
    pose proof (clear_guarded d G) as S1.
    destruct (clear d) as [[u|e] d1]; simpl in S1.
    + destruct (steady_power_off_tail d1) as [N _]. exact N.
    + destruct S1 as [N _]. exact N.
  - rewrite (bind_raise _ _ _ _ _ (clear_unguarded d G)). reflexivity.
Qed.

Lemma fails_fast_invoke (c : call) : obeys fails_fast (invoke c).
Proof.
  destruct c; simpl;
    try apply fails_fast_clear; try apply fails_fast_power_off;
    repeat autounfold with methods; fails_fast.
Qed.

(** X15. An [AssertionError] means nothing happened: whenever a call of any
    method raises it, the instance and its collaborators are exactly as
    before the call, so no byte was handed to the bus, no cached field
    changed, no pin was driven and no time was spent. *)
Theorem rejected_call_has_no_effect :
  forall c d,
    fst (invoke c d) = Raise AssertionError ->
    snd (invoke c d) = d /\ issued (invoke c) d = [].
Proof.
  intros c d He.
  assert (E : snd (invoke c d) = d).
  { apply (fails_fast_invoke c d). now rewrite He. }
  split; [exact E|].
  apply (issued_unchanged (invoke c) d (fst (invoke c d))).
  rewrite <- E at 3. now destruct (invoke c d).
Qed.

Lemma rejected_call_has_no_effect_witness :
  snd (invoke (Call_set_precharge_period 3 16) sample_driver) = sample_driver
  /\ issued (invoke (Call_set_precharge_period 3 16)) sample_driver = [].
Proof.
  apply (rejected_call_has_no_effect
           (Call_set_precharge_period 3 16) sample_driver).
  reflexivity.
Defined.

(** ** Power-off and reset *)

Lemma lifecycle_i2c_writeto (addr : Z) (buf : list Z) :
  obeys lifecycle_untouched (i2c_writeto addr buf).
Proof.
  intro d. unfold i2c_writeto.
  destruct (bus_request addr buf (i2c d)). repeat split.
Qed.

#[local] Hint Resolve lifecycle_i2c_writeto : obeys.













Lemma reset_with_rst_attached_witness :
  fst (reset sample_driver_with_rst) = Ok tt
  /\ power (snd (reset sample_driver_with_rst)) = POWER_DOWN
  /\ addressing (snd (reset sample_driver_with_rst)) = ADDRESSING_HORIZ
  /\ display_mode (snd (reset sample_driver_with_rst)) = DISPLAY_NORMAL
  /\ rst (snd (reset sample_driver_with_rst)) = Some (pin_set 1 sample_pin)
  /\ elapsed_us (snd (reset sample_driver_with_rst))
     = elapsed_us sample_driver_with_rst + 100.
Proof.
  apply (reset_with_rst_attached sample_driver_with_rst sample_pin).
  reflexivity.
Defined.

(** ** Construction, continued *)




Lemma init_partial_wire (bus : I2C) (pins : string * string)
      (pwr : option Pin) (addr : Z) (k : nat) (rest : list nat) :
  pwr_init_completes pwr = true ->
  faults bus = k :: rest -> (k < 17)%nat ->
  fst (__init__ bus pins pwr addr) = Raise OSError
  /\ wire (i2c (snd (__init__ bus pins pwr addr)))
     = rev (map (pair addr) (firstn (S k) init_sequence)) ++ wire bus
  /\ faults (i2c (snd (__init__ bus pins pwr addr))) = rest.
Proof.
  intros Hp Hf Hk. destruct bus as [bb bp fl wr]. simpl in Hf. subst fl.
  assert (Hpwr : pwr = None
                 \/ exists cf pv, pwr = Some (mkPin false cf pv)).
  { destruct pwr as [[[|] cf pv]|]; [discriminate Hp | right | left];
      eauto. }
  do 17 (destruct k as [|k];
         [destruct Hpwr as [->|[cf [pv ->]]];
          (split; [|split]); vm_compute; reflexivity|]).
  lia.
Qed.

(** X18. Construction has no partial-success handling: if the bus fails the
    request number k+1 of the 17 (k requests served before it), the
    constructor raises [OSError] there, having handed the bus exactly the
    first k+1 buffers of the initialization sequence and nothing after.
    With a pyBoard style power pin the constructor raises [NameError] before
    it reaches the bus or drives the pin. *)
Theorem init_stops_at_first_failure :
  (forall bus pins pwr addr k rest,
     pwr_init_completes pwr = true ->
     faults bus = k :: rest -> (k < 17)%nat ->
     fst (__init__ bus pins pwr addr) = Raise OSError
     /\ transfers (i2c (snd (__init__ bus pins pwr addr)))
        = transfers bus ++ map (pair addr) (firstn (S k) init_sequence)) /\
  (forall bus pins pin addr,
     has_OUT_PP pin = true ->
     fst (__init__ bus pins (Some pin) addr) = Raise NameError
     /\ transfers (i2c (snd (__init__ bus pins (Some pin) addr)))
        = transfers bus
     /\ pwr (snd (__init__ bus pins (Some pin) addr)) = Some pin).
Proof.
  split.
  - intros bus pins pwr addr k rest Hp Hf Hk.
    destruct (init_partial_wire bus pins pwr addr k rest Hp Hf Hk)
      as [Hr [Hw _]].
    split; [exact Hr|]. unfold transfers.
    rewrite Hw, rev_app_distr, rev_involutive. reflexivity.
  - intros bus pins [op cf pv] addr Hop. simpl in Hop. subst op.
    destruct bus as [bb bp fl wr]. repeat split.
Qed.

Lemma init_stops_at_first_failure_witness :
  (fst (__init__ (mkI2C None None [2%nat] []) default_pins None 0x3c)
   = Raise OSError
   /\ transfers
        (i2c (snd (__init__ (mkI2C None None [2%nat] []) default_pins None
                            0x3c)))
      = [(0x3c, [0x80; 0xae]);
         (0x3c, [0x80; 0xa8; 0x80; 0x3f]);
         (0x3c, [0x80; 0xd3; 0x80; 0x00])]) /\
  fst (__init__ sample_bus default_pins (Some (mkPin true false None)) 0x3c)
  = Raise NameError.
Proof.
  destruct init_stops_at_first_failure as [Hb Hn]. split.
  - apply (Hb (mkI2C None None [2%nat] []) default_pins None 0x3c
              2%nat []); [reflexivity | reflexivity | lia].
  - apply (Hn sample_bus default_pins (mkPin true false None) 0x3c).
    reflexivity.
Defined.

(** ** The console echo *)

#[local] Instance echoed_sequential : Sequential echoed.
Proof.
  split.
  - intro d. exists []. repeat split.
  - intros d d1 d2 o [b1 [W1 [S1 D1]]] [b2 [W2 [S2 D2]]].
    exists (b2 ++ b1).
    rewrite W2, W1, S2, S1, D2, D1, map_app, !app_assoc. repeat split.
Qed.

Lemma echoed_bitmap (arr : list Z) (dc : Z) : obeys echoed (bitmap arr dc).
Proof.
  intro d. destruct (forallb is_byte (dc :: arr)) eqn:Hb.
  - rewrite (bitmap_run arr dc d Hb). exists [dc :: arr].
    cbn [snd map app]. rewrite wire_requested. repeat split.
  - rewrite (bitmap_rejected arr dc d Hb). exists []. repeat split.
Qed.

#[local] Hint Resolve echoed_bitmap : obeys.

Create HintDb callers.

#[local] Hint Unfold invoke set_power set_vcomh_deselect_level
  set_precharge_period set_com_pins_hw_config
  set_com_output_scan_dir_remap_enabled set_segment_remap_enabled
  set_chargepump_enabled _set_oscfreqclockdiv set_osc_freq set_clock_div
  set_mux_ratio set_disp_offset set_disp_start_line set_addressing
  set_display set_contrast position clear sleep_ms sleep_us pwr_value
  rst_value power_on reset power_off command data init_body pwr_init
  : callers.

Ltac echoed_side := intro; exists []; repeat split.

Lemma echoed_invoke (c : call) : obeys echoed (invoke c).
Proof.
  destruct c; repeat autounfold with callers; obeys_with echoed_side.
Qed.

Lemma echoed_i2c_init (baudrate : Z) (pins : option (string * string)) :
  obeys echoed (i2c_init baudrate pins).
Proof. intro d. exists []. repeat split. Qed.

#[local] Hint Resolve echoed_i2c_init : obeys.

Lemma echoed_init_body (pins : string * string) :
  obeys echoed (init_body pins).
Proof. repeat autounfold with callers. obeys_with echoed_side. Qed.

Lemma echoed_session (cs : list call) (d : SSD1306) :
  exists bufs,
    wire (i2c (session cs d)) = map (pair (devid d)) bufs ++ wire (i2c d)
    /\ stdout (session cs d) = bufs ++ stdout d.
Proof.
  revert d. induction cs as [|c cs IH]; intro d.
  - exists []. split; reflexivity.
  - simpl. destruct (echoed_invoke c d) as [b1 [W1 [S1 D1]]].
    destruct (IH (snd (invoke c d))) as [b2 [W2 S2]].
    exists (b2 ++ b1).
    rewrite W2, W1, S2, S1, D1, map_app, !app_assoc. split; reflexivity.
Qed.

Lemma echo_read_back (a : Z) (bufs : list (list Z))
      (w : list (Z * list Z)) :
  rev bufs
  = skipn (List.length (rev w)) (map snd (rev (map (pair a) bufs ++ w))).
Proof.
  rewrite rev_app_distr, map_app, skipn_app, length_map, Nat.sub_diag.
  rewrite skipn_all2 by (rewrite length_map; lia).
  simpl. rewrite map_rev, map_map. simpl. now rewrite map_id.
Qed.

(** X19. Every buffer the driver hands to the bus is printed on the console
    first, in full, and nothing else is printed: through the constructor
    and every session of calls, the console shows exactly the buffers of the
    requests the bus received, in the same order. *)
Theorem console_echoes_every_transfer :
  forall bus pins ppin addr cs,
    rev (stdout (session cs (snd (__init__ bus pins ppin addr))))
    = skipn (List.length (transfers bus))
        (map snd
           (transfers (i2c (session cs (snd (__init__ bus pins ppin addr)))))).
Proof.
  intros bus pins ppin addr cs.
  destruct (echoed_init_body pins (new_instance bus ppin addr))
    as [b1 [W1 [S1 D1]]].
  destruct (echoed_session cs (snd (__init__ bus pins ppin addr)))
    as [b2 [W2 S2]].
  unfold __init__ in *. rewrite D1 in W2. simpl in W1, S1, W2.
  assert (Hs : stdout (session cs (snd (init_body pins
                                         (new_instance bus ppin addr))))
               = b2 ++ b1) by (rewrite S2, S1, app_nil_r; reflexivity).
  assert (Hw : wire (i2c (session cs (snd (init_body pins
                                            (new_instance bus ppin addr)))))
               = map (pair addr) (b2 ++ b1) ++ wire bus)
    by (rewrite W2, W1, map_app, app_assoc; reflexivity).
  unfold transfers. rewrite Hs, Hw. apply echo_read_back.
Qed.

(** ** The older variant *)

Lemma legacy_bitmap_run (l : list Z) (dc : Z) (d : SSD1306) :
  forallb is_byte (dc :: l) = true ->
  Legacy.bitmap (PyList l) dc d
  = (outcome d, with_i2c (snd (bus_request (devid d) (dc :: l) (i2c d))) d).
Proof.
  intro Hb. unfold Legacy.bitmap, bind, struct_pack_B.
  change ([dc] ++ l) with (dc :: l). rewrite Hb.
  unfold ret, gets, Legacy.i2c_send, i2c_writeto, outcome, serves,
    bus_request.
  destruct d as [w h dev p a dm f c [bb bp fl wr] pw rs el so]; simpl.
  destruct fl as [|[|n] rest]; reflexivity.
Qed.

Lemma wire_bus_request (addr : Z) (buf : list Z) (b : I2C) :
  wire (snd (bus_request addr buf b)) = (addr, buf) :: wire b.
Proof.
  unfold bus_request. destruct (faults b) as [|[|n] rest]; reflexivity.
Qed.

Lemma legacy_issued (m : M unit) (d d' : SSD1306) (r : result unit)
      (buf : list Z) :
  m d = (r, with_i2c (snd (bus_request (devid d) buf (i2c d'))) d') ->
  i2c d' = i2c d ->
  issued m d = [(devid d, buf)].
Proof.
  intros E Hb. apply (issued_of_wire m d [(devid d, buf)]).
  rewrite E. cbn [snd]. change (i2c (with_i2c ?b ?x)) with b.
  rewrite wire_bus_request, Hb. reflexivity.
Qed.

(** X20. The older variant frames by block: [command] and [data] given a
    list of bytes hand the bus one buffer, the control byte (0x80 or 0x40)
    once and then the bytes as they are, and print nothing.  Given a bare
    integer, as the older constructor and [set_power] do, [command] raises
    [TypeError] and nothing reaches the bus. *)
Theorem legacy_block_framing :
  (forall d arr, forallb is_byte arr = true ->
     issued (Legacy.command (PyList arr)) d = [(devid d, DC_CMD :: arr)]
     /\ issued (Legacy.data (PyList arr)) d = [(devid d, DC_DATA :: arr)]
     /\ fst (Legacy.command (PyList arr) d) = outcome d
     /\ stdout (snd (Legacy.command (PyList arr) d)) = stdout d) /\
  (forall d n,
     Legacy.command (PyInt n) d = (Raise TypeError, d)
     /\ Legacy.data (PyInt n) d = (Raise TypeError, d)).
Proof.
  split.
  - intros d arr Hb.
    assert (Ec : Legacy.command (PyList arr) d
                 = (outcome d,
                    with_i2c (snd (bus_request (devid d) (DC_CMD :: arr)
                                               (i2c d))) d))
      by (apply legacy_bitmap_run; exact Hb).
    assert (Ed : Legacy.data (PyList arr) d
                 = (outcome d,
                    with_i2c (snd (bus_request (devid d) (DC_DATA :: arr)
                                               (i2c d))) d))
      by (apply legacy_bitmap_run; exact Hb).
    split; [exact (legacy_issued _ _ _ _ _ Ec eq_refl)|].
    split; [exact (legacy_issued _ _ _ _ _ Ed eq_refl)|].
    now rewrite Ec.
  - intros d n. split; reflexivity.
Qed.

Lemma legacy_block_framing_witness :
  issued (Legacy.command (PyList [0xd5; 0x80])) sample_instance
  = [(0x3c, [0x80; 0xd5; 0x80])]
  /\ issued (Legacy.data (PyList [0; 0xff])) sample_instance
     = [(0x3c, [0x40; 0; 0xff])].
Proof.
  destruct (proj1 legacy_block_framing sample_instance [0xd5; 0x80])
    as [Hc _]; [reflexivity|].
  destruct (proj1 legacy_block_framing sample_instance [0; 0xff])
    as [_ [Hd _]]; [reflexivity|].
  split; [exact Hc | exact Hd].
Defined.

Lemma legacy_set_power_run (p : Z) (d : SSD1306) :
  p = POWER_UP \/ p = POWER_DOWN ->
  Legacy.set_power p d = (Raise TypeError, with_power p d).
Proof.
  intro H. unfold Legacy.set_power.
  rewrite bind_assert_true by (apply Z_in_2; exact H). reflexivity.
Qed.

Create HintDb legacy.

#[local] Hint Unfold Legacy.clear Legacy.position Legacy.command
  Legacy.data Legacy.bitmap Legacy.i2c_send struct_pack_B : legacy.

Lemma lifecycle_legacy_clear : obeys lifecycle_untouched Legacy.clear.
Proof.
  repeat autounfold with legacy. cbv beta iota.
  obeys_with ltac:(intro; repeat split).
Qed.

(** X21. In the older variant the power mode never reaches the controller:
    [set_power] with a valid mode caches it and then raises [TypeError]
    without a transfer (an invalid mode raises [AssertionError] and changes
    nothing).  So [power_off] never completes: it always raises, and the
    power pin is never driven low and no settle time is spent. *)
Theorem legacy_set_power_never_sends :
  (forall d p, p = POWER_UP \/ p = POWER_DOWN ->
     Legacy.set_power p d = (Raise TypeError, with_power p d)
     /\ issued (Legacy.set_power p) d = []) /\
  (forall d p, ~ (p = POWER_UP \/ p = POWER_DOWN) ->
     Legacy.set_power p d = (Raise AssertionError, d)) /\
  (forall d,
     fst (Legacy.power_off d) <> Ok tt
     /\ pwr (snd (Legacy.power_off d)) = pwr d
     /\ elapsed_us (snd (Legacy.power_off d)) = elapsed_us d).
Proof.
  split; [|split].
  - intros d p H. pose proof (legacy_set_power_run p d H) as E.
    split; [exact E|].
    apply (issued_of_wire _ d []). now rewrite E.
  - intros d p H. unfold Legacy.set_power.
    apply bind_assert_false, not_true_false.
    intro Hin. apply H. now apply Z_in_2.
  - intro d. unfold Legacy.power_off.
    pose proof (lifecycle_legacy_clear d) as L.
    destruct (Legacy.clear d) as [[u|e] d1] eqn:C; simpl in L;
      destruct L as [P [_ El]].
    + rewrite (bind_run _ _ _ _ _ C).
      rewrite (bind_raise _ _ _ _ _
                 (legacy_set_power_run POWER_DOWN d1 (or_intror eq_refl))).
      split; [discriminate|]. split; [exact P | exact El].
    + rewrite (bind_raise _ _ _ _ _ C).
      split; [discriminate|]. split; [exact P | exact El].
Qed.

Lemma legacy_set_power_never_sends_witness :
  Legacy.set_power POWER_UP sample_instance
  = (Raise TypeError, with_power POWER_UP sample_instance)
  /\ Legacy.set_power 0 sample_instance
     = (Raise AssertionError, sample_instance).
Proof.
  destruct legacy_set_power_never_sends as [Hv [Hr _]]. split.
  - apply (Hv sample_instance POWER_UP). left. reflexivity.
  - apply (Hr sample_instance 0). unfold POWER_UP, POWER_DOWN. lia.
Defined.

(** X22. The older variant's cursor positioning sends, as one block, the
    addressing-mode command followed by the coordinates:
    [0x20, 0x00, x, 0x21, 0x00, y] after the control byte, for x in
    [0, width) and y in [0, height/8), both byte-sized; outside these ranges
    it raises [AssertionError] and sends nothing.  Its [set_adressing] and
    [set_contrast] send [0x20, mode] and [0x81, value] as blocks. *)
Theorem legacy_setters_encoding :
  (forall d x y,
     0 <= x < width d -> 0 <= y < height d / 8 -> x <= 255 -> y <= 255 ->
     issued (Legacy.position x y) d
     = [(devid d, [DC_CMD; 0x20; 0x00; x; 0x21; 0x00; y])]) /\
  (forall d x y,
     ~ (0 <= x < width d) \/ ~ (0 <= y < height d / 8) ->
     Legacy.position x y d = (Raise AssertionError, d)) /\
  (forall d addr,
     addr = ADDRESSING_HORIZ \/ addr = ADDRESSING_VERT
     \/ addr = ADDRESSING_PAGE ->
     issued (Legacy.set_adressing addr) d = [(devid d, [DC_CMD; 0x20; addr])]
     /\ addressing (snd (Legacy.set_adressing addr d)) = addr) /\
  (forall d value, 0 <= value <= 255 ->
     issued (Legacy.set_contrast value) d
     = [(devid d, [DC_CMD; 0x81; value])]).
Proof.
  split; [|split; [|split]].
  - intros d x y Hx Hy Hx' Hy'.
    assert (E : Legacy.position x y d
                = (outcome d,
                   with_i2c (snd (bus_request (devid d)
                                    [DC_CMD; 0x20; 0x00; x; 0x21; 0x00; y]
                                    (i2c d))) d)).
    { unfold Legacy.position.
      rewrite bind_gets, bind_assert_true by (apply in_range_lt; lia).
      rewrite bind_gets, bind_assert_true by (apply in_range_lt; lia).
      apply legacy_bitmap_run. cbn [forallb].
      rewrite (is_byte_range x), (is_byte_range y) by lia. reflexivity. }
    exact (legacy_issued _ _ _ _ _ E eq_refl).
  - intros d x y H. unfold Legacy.position. rewrite bind_gets.
    destruct (Z_le_gt_dec 0 x) as [Hx0|Hx0];
      [destruct (Z_lt_ge_dec x (width d)) as [Hx1|Hx1]|].
    + rewrite bind_assert_true by (apply in_range_lt; lia).
      rewrite bind_gets. apply bind_assert_false, out_of_range_lt.
      destruct H as [H|H]; [exfalso; apply H; lia | exact H].
    + apply bind_assert_false, out_of_range_lt. lia.
    + apply bind_assert_false, out_of_range_lt. lia.
  - intros d addr H.
    assert (E : Legacy.set_adressing addr d
                = (outcome d,
                   with_i2c (snd (bus_request (devid d)
                                    [DC_CMD; 0x20; addr] (i2c d)))
                            (with_addressing addr d))).
    { unfold Legacy.set_adressing.
      rewrite bind_assert_true, bind_modify by (apply Z_in_3; exact H).
      unfold Legacy.command. rewrite legacy_bitmap_run; [reflexivity|].
      destruct H as [->|[->| ->]]; reflexivity. }
    split; [exact (legacy_issued _ _ _ _ _ E eq_refl) | now rewrite E].
  - intros d value H.
    assert (E : Legacy.set_contrast value d
                = (outcome d,
                   with_i2c (snd (bus_request (devid d)
                                    [DC_CMD; 0x81; value] (i2c d))) d)).
    { unfold Legacy.set_contrast.
      rewrite bind_assert_true by (apply in_range_le; exact H).
      apply legacy_bitmap_run. cbn [forallb].
      rewrite (is_byte_range value) by lia. reflexivity. }
    exact (legacy_issued _ _ _ _ _ E eq_refl).
Qed.

Lemma legacy_setters_encoding_witness :
  issued (Legacy.position 5 3) sample_instance
  = [(0x3c, [0x80; 0x20; 0x00; 5; 0x21; 0x00; 3])]
  /\ Legacy.position 0 8 sample_instance
     = (Raise AssertionError, sample_instance)
  /\ issued (Legacy.set_adressing ADDRESSING_VERT) sample_instance
     = [(0x3c, [0x80; 0x20; 0x01])]
  /\ issued (Legacy.set_contrast 255) sample_instance
     = [(0x3c, [0x80; 0x81; 0xff])].
Proof.
  destruct legacy_setters_encoding as [Hp [Hq [Ha Hc]]].
  split; [|split; [|split]].
  - apply (Hp sample_instance 5 3); unfold sample_instance, new_instance;
      cbn [width height]; change (64 / 8) with 8; lia.
  - apply (Hq sample_instance 0 8). right.
    unfold sample_instance, new_instance. cbn [height].
    change (64 / 8) with 8. lia.
  - destruct (Ha sample_instance ADDRESSING_VERT) as [H _];
      [right; left; reflexivity | exact H].
  - apply (Hc sample_instance 255). lia.
Defined.

(** ** Cursor, display offset and reset, completed *)

(** X23. For x in [0, width) and y in [0, height/8), both byte-sized,
    [position] sends the column-range command [0x21, x, 0x7F] and the
    page-range command [0x22, y, 0x07] in one request: the window runs from
    the given column and page to column 127 and page 7, whatever the
    dimensions of the instance. *)
Theorem position_encoding :
  forall d x y,
    0 <= x < width d -> 0 <= y < height d / 8 -> x <= 255 -> y <= 255 ->
    issued (position x y) d
    = [(devid d,
        [DC_CMD; 0x21; DC_CMD; x; DC_CMD; 0x7f;
         DC_CMD; 0x22; DC_CMD; y; DC_CMD; 0x07])]
    /\ fst (position x y d) = outcome d.
Proof.
  intros d x y Hx Hy Hx' Hy'.
  pose proof (position_run x y d Hx Hy Hx' Hy') as E.
  split; [exact (issued_requested _ _ _ _ E) | now rewrite E].
Qed.

Lemma position_encoding_witness :
  issued (position 127 7) sample_driver
  = [(0x3c, [0x80; 0x21; 0x80; 127; 0x80; 0x7f;
             0x80; 0x22; 0x80; 7; 0x80; 0x07])].
Proof.
  destruct (position_encoding sample_driver 127 7) as [H _].
  - vm_compute. split; [discriminate | reflexivity].
  - vm_compute. split; [discriminate | reflexivity].
  - lia.
  - lia.
  - rewrite H. vm_compute. reflexivity.
Defined.

(** X24. The offsets [set_disp_offset] accepts are exactly 0..62: for these
    it sends [0xD3, offset]; every other offset raises [AssertionError]
    with the instance untouched. *)
Theorem set_disp_offset_domain :
  (forall d offset, 0 <= offset <= 62 ->
     issued (set_disp_offset offset) d
     = [(devid d, per_byte_framing [0xd3; offset])]
     /\ fst (set_disp_offset offset d) = outcome d) /\
  (forall d offset, ~ (0 <= offset <= 62) ->
     set_disp_offset offset d = (Raise AssertionError, d)).
Proof.
  split; intros d offset H.
  - pose proof (set_disp_offset_encoding offset d H) as E.
    split; [exact (issued_requested _ _ _ _ E) | now rewrite E].
  - unfold set_disp_offset. apply bind_assert_false, out_of_range_lt. lia.
Qed.

Lemma set_disp_offset_domain_witness :
  issued (set_disp_offset 62) sample_driver
  = [(0x3c, [0x80; 0xd3; 0x80; 62])]
  /\ set_disp_offset 64 sample_driver = (Raise AssertionError, sample_driver).
Proof.
  split.
  - destruct (proj1 set_disp_offset_domain sample_driver 62) as [H _];
      [lia | exact H].
  - apply (proj2 set_disp_offset_domain sample_driver 64). lia.
Defined.

(** X25. On an instance to which a client has attached a reset pin, [reset]
    runs to its end: it returns normally, 100 microseconds are spent, the
    pin is left high, and the cached power mode, addressing mode and display
    mode are Down, Horizontal and Normal whatever they were; nothing is
    handed to the bus. *)
Theorem reset_pulses_and_resynchronizes :
  forall d pin,
    rst d = Some pin ->
    fst (reset d) = Ok tt
    /\ power (snd (reset d)) = POWER_DOWN
    /\ addressing (snd (reset d)) = ADDRESSING_HORIZ
    /\ display_mode (snd (reset d)) = DISPLAY_NORMAL
    /\ rst (snd (reset d)) = Some (pin_set 1 pin)
    /\ elapsed_us (snd (reset d)) = elapsed_us d + 100
    /\ i2c (snd (reset d)) = i2c d.
Proof.
  intros d pin H.
  destruct (reset_with_rst_attached d pin H) as [H1 [H2 [H3 [H4 [H5 H6]]]]].
  repeat (split; [assumption|]).
  unfold reset, rst_value, sleep_us, bind, gets, modify. rewrite H.
  reflexivity.
Qed.

Lemma reset_pulses_and_resynchronizes_witness :
  fst (reset (session [Call_set_power POWER_UP] sample_driver_with_rst))
  = Ok tt
  /\ power (snd (reset (session [Call_set_power POWER_UP]
                                sample_driver_with_rst)))
     = POWER_DOWN.
Proof.
  destruct (reset_pulses_and_resynchronizes
              (session [Call_set_power POWER_UP] sample_driver_with_rst)
              sample_pin) as [H1 [H2 _]]; [reflexivity|].
  split; [exact H1 | exact H2].
Defined.
